(** * azqr: rule predicates, rule tables and scanners

    A shallow embedding of the rule tables of the Event Hub, AKS and
    Databricks scanners, of the resource-group [Scan] loop shared by the
    scale-set, SignalR and container-instance scanners, and of the Advisor
    scanner, with the properties the specification states about them.

    Go values are modelled as follows.
    - A pointer that the code only dereferences or tests against [nil] is an
      [option]: [None] is [nil], [Some v] points to [v].
    - A pointer that the code compares by address ([*bool] in dbw-007) is an
      address into a store of boolean cells.
    - A slice is [option (list A)]: [None] is the nil slice.
    - A Go map is a [gmap]; a map literal is [list_to_map] of its entries.
    - A function body is a computation in the monad [Go]: it threads the
      store and ends by returning, by a run-time panic, or by a fatal log
      call that exits the process. *)

From Stdlib Require Import Ascii String.
From stdpp Require Import base option list gmap strings fin_maps.

Local Open Scope string_scope.

(** ** Outcomes and the [Go] monad *)

(** How a call ends: it returns, it panics (nil dereference, failed type
    assertion), or it exits the process through [log.Fatalf] / [log.Fatal]
    with the given message. *)
Inductive outcome (A : Type) : Type :=
| Returned (a : A)
| Panic
| Fatal (msg : string).
Arguments Returned {A} a.
Arguments Panic {A}.
Arguments Fatal {A} msg.

(** Addresses of the boolean cells of the store. *)
Abbreviation store := (gmap positive bool) (only parsing).

Definition Go (A : Type) : Type := store -> outcome (A * store).

Definition go_ret {A} (a : A) : Go A := fun m => Returned (a, m).

Definition go_bind {A B} (c : Go A) (k : A -> Go B) : Go B :=
  fun m => match c m with
           | Returned (a, m') => k a m'
           | Panic => Panic
           | Fatal msg => Fatal msg
           end.

#[global] Instance Go_ret : MRet Go := @go_ret.
#[global] Instance Go_bind : MBind Go := fun A B k c => go_bind c k.

Definition panic {A} : Go A := fun _ => Panic.
Definition fatal {A} (msg : string) : Go A := fun _ => Fatal msg.

(** [*p]: dereferencing [nil] panics. *)
Definition deref {A} (p : option A) : Go A :=
  match p with
  | Some a => mret a
  | None => panic
  end.

(** What a call produced, forgetting the store it ended in. *)
Definition result {A} (o : outcome (A * store)) : outcome A :=
  match o with
  | Returned (a, _) => Returned a
  | Panic => Panic
  | Fatal msg => Fatal msg
  end.

(** ** Slices *)

Definition slice (A : Type) : Type := option (list A).

(** [len(s)]; the nil slice has length 0. *)
Definition len {A} (s : slice A) : nat :=
  match s with
  | Some l => length l
  | None => 0
  end.

(** The elements a [range] loop visits; none for the nil slice. *)
Definition elems {A} (s : slice A) : list A :=
  match s with
  | Some l => l
  | None => []
  end.

(** ** Package [strings] and [strconv] *)

Module strings.

(** [unicode.ToLower] on one byte of an ASCII string. *)
Definition lower_ascii (c : ascii) : ascii :=
  let n := nat_of_ascii c in
  if ((65 <=? n)%nat && (n <=? 90)%nat)%bool then ascii_of_nat (n + 32) else c.

(** [strings.ToLower], exact on ASCII input (which Azure resource ids are);
    bytes from 0x80 up are left as they are. *)
Fixpoint ToLower (s : string) : string :=
  match s with
  | EmptyString => EmptyString
  | String c s' => String (lower_ascii c) (ToLower s')
  end.

(** [strings.HasPrefix s prefix]. *)
Fixpoint HasPrefix (s prefix : string) : bool :=
  match prefix with
  | EmptyString => true
  | String p prefix' =>
      match s with
      | EmptyString => false
      | String c s' => if Ascii.eqb c p then HasPrefix s' prefix' else false
      end
  end.

(** [strings.Contains s substr]. *)
Fixpoint Contains (s substr : string) : bool :=
  HasPrefix s substr ||
  match s with
  | EmptyString => false
  | String _ s' => Contains s' substr
  end.

End strings.

Module strconv.

Definition FormatBool (b : bool) : string := if b then "true" else "false".

End strconv.

(** ** Package [to] *)

Module to.

(** [to.Ptr(v)] for a [bool].  The package is not among the sources; [Ptr]
    is Go's [&v] on its own copy of the argument: a new cell holding [v], at
    an address no cell of the store has. *)
Definition Ptr (v : bool) : Go positive :=
  fun m => let a := fresh (dom m) in Returned (a, <[a := v]> m).

End to.

(** Go's [error] values, by their message. *)
Abbreviation error := string (only parsing).

(** ** The Azure SDK resource types the predicates read

    Only the fields the sources read are kept.  A field is named
    [Struct_Field] after the Go struct and field.  The elements of a slice of
    pointers are modelled by their pointees. *)

Module armeventhub.

Record PrivateEndpointConnection := {
  PrivateEndpointConnection_ID : option string }.

Record EHNamespaceProperties := {
  EHNamespaceProperties_ZoneRedundant : option bool;
  EHNamespaceProperties_PrivateEndpointConnections :
    slice PrivateEndpointConnection }.

Record SKU := {
  SKU_Name : option string }.

Record EHNamespace := {
  EHNamespace_ID : option string;
  EHNamespace_Name : option string;
  EHNamespace_Properties : option EHNamespaceProperties;
  EHNamespace_SKU : option SKU }.

End armeventhub.

Module armcontainerservice.

(** Constants of the SDK's [OutboundType] and [NetworkPlugin] string types. *)
Definition OutboundTypeUserDefinedRouting : string := "userDefinedRouting".
Definition NetworkPluginKubenet : string := "kubenet".

Record ManagedClusterAgentPoolProfile := {
  ManagedClusterAgentPoolProfile_AvailabilityZones : slice string;
  ManagedClusterAgentPoolProfile_EnableAutoScaling : option bool }.

Record ManagedClusterAPIServerAccessProfile := {
  ManagedClusterAPIServerAccessProfile_EnablePrivateCluster : option bool }.

Record ManagedClusterAADProfile := {
  ManagedClusterAADProfile_Managed : option bool }.

Record ManagedClusterAddonProfile := {
  ManagedClusterAddonProfile_Enabled : option bool }.

Record NetworkProfile := {
  NetworkProfile_OutboundType : option string;
  NetworkProfile_NetworkPlugin : option string }.

Record ManagedClusterProperties := {
  ManagedClusterProperties_AgentPoolProfiles :
    slice ManagedClusterAgentPoolProfile;
  ManagedClusterProperties_APIServerAccessProfile :
    option ManagedClusterAPIServerAccessProfile;
  ManagedClusterProperties_AADProfile : option ManagedClusterAADProfile;
  ManagedClusterProperties_EnableRBAC : option bool;
  ManagedClusterProperties_DisableLocalAccounts : option bool;
  ManagedClusterProperties_AddonProfiles :
    gmap string (option ManagedClusterAddonProfile);
  ManagedClusterProperties_NetworkProfile : option NetworkProfile }.

Record ManagedClusterSKU := {
  ManagedClusterSKU_Tier : option string }.

Record ManagedCluster := {
  ManagedCluster_ID : option string;
  ManagedCluster_Name : option string;
  ManagedCluster_Properties : option ManagedClusterProperties;
  ManagedCluster_SKU : option ManagedClusterSKU;
  ManagedCluster_Tags : option (gmap string (option string)) }.

End armcontainerservice.

Module armdatabricks.

Record PrivateEndpointConnection := {
  PrivateEndpointConnection_ID : option string }.

(** [Value] is a [*bool] that dbw-007 compares by address: [None] is [nil],
    [Some a] the address of a cell of the store. *)
Record WorkspaceNoPublicIPBooleanParameter := {
  WorkspaceNoPublicIPBooleanParameter_Value : option positive }.

Record WorkspaceCustomParameters := {
  WorkspaceCustomParameters_EnableNoPublicIP :
    option WorkspaceNoPublicIPBooleanParameter }.

Record WorkspaceProperties := {
  WorkspaceProperties_PrivateEndpointConnections :
    slice PrivateEndpointConnection;
  WorkspaceProperties_Parameters : option WorkspaceCustomParameters }.

Record SKU := {
  SKU_Name : option string }.

Record Workspace := {
  Workspace_ID : option string;
  Workspace_Name : option string;
  Workspace_Properties : option WorkspaceProperties;
  Workspace_SKU : option SKU }.

(** Every [*bool] the workspace holds points to a cell of the store. *)
Definition allocated (m : store) (w : Workspace) : Prop :=
  forall p q e a,
    Workspace_Properties w = Some p ->
    WorkspaceProperties_Parameters p = Some q ->
    WorkspaceCustomParameters_EnableNoPublicIP q = Some e ->
    WorkspaceNoPublicIPBooleanParameter_Value e = Some a ->
    a ∈ dom m.

End armdatabricks.

Module armcompute.

Record VirtualMachineScaleSet := {
  VirtualMachineScaleSet_ID : option string;
  VirtualMachineScaleSet_Name : option string;
  VirtualMachineScaleSet_Type : option string;
  VirtualMachineScaleSet_Location : option string }.

End armcompute.

Module armsignalr.

Record ResourceInfo := {
  ResourceInfo_ID : option string;
  ResourceInfo_Name : option string;
  ResourceInfo_Type : option string;
  ResourceInfo_Location : option string }.

End armsignalr.

Module armcontainerinstance.

Record ContainerGroup := {
  ContainerGroup_ID : option string;
  ContainerGroup_Name : option string;
  ContainerGroup_Type : option string;
  ContainerGroup_Location : option string }.

End armcontainerinstance.

Module armadvisor.

Record ShortDescription := {
  ShortDescription_Problem : option string }.

Record RecommendationProperties := {
  RecommendationProperties_ImpactedValue : option string;
  RecommendationProperties_Category : option string;
  RecommendationProperties_ShortDescription : option ShortDescription;
  RecommendationProperties_ImpactedField : option string;
  RecommendationProperties_PotentialBenefits : option string;
  RecommendationProperties_Risk : option string;
  RecommendationProperties_LearnMoreLink : option string }.

Record ResourceRecommendationBase := {
  ResourceRecommendationBase_Properties : option RecommendationProperties }.

End armadvisor.

(** The [interface{}] a predicate receives: a pointer to one of the resource
    types, which the predicate recovers by a type assertion. *)
Inductive target : Type :=
| EHNamespace_ptr (r : armeventhub.EHNamespace)
| ManagedCluster_ptr (r : armcontainerservice.ManagedCluster)
| Workspace_ptr (r : armdatabricks.Workspace)
| VirtualMachineScaleSet_ptr (r : armcompute.VirtualMachineScaleSet)
| ResourceInfo_ptr (r : armsignalr.ResourceInfo)
| ContainerGroup_ptr (r : armcontainerinstance.ContainerGroup).

(** ** Package [azqr]: the shared types and the recommendation engine

    The declarations of this package are not among the sources; the records
    follow the field names its callers use.  [Category] and [Impact] hold
    constants declared outside the sources and play no part in evaluation;
    they are left out. *)

Module azqr.

Record ScanContext := {
  ScanContext_DiagnosticsSettings : gmap string bool }.

Record ScannerConfig := {
  ScannerConfig_SubscriptionID : string;
  ScannerConfig_SubscriptionName : string }.

Record AzqrRecommendation := {
  AzqrRecommendation_RecommendationID : string;
  AzqrRecommendation_ResourceType : string;
  AzqrRecommendation_Recommendation : string;
  AzqrRecommendation_Eval : target -> ScanContext -> Go (bool * string);
  AzqrRecommendation_Url : string }.

(** Modelled from the spec: the row the engine produces for one rule, "rule
    id, broken flag, detail string"; the engine's own result type is not
    among the sources. *)
Record ResultRow := {
  ruleId : string;
  broken : bool;
  detail : string }.

Record AzqrServiceResult := {
  AzqrServiceResult_SubscriptionID : string;
  AzqrServiceResult_SubscriptionName : string;
  AzqrServiceResult_ResourceGroup : string;
  AzqrServiceResult_ServiceName : string;
  AzqrServiceResult_Type : string;
  AzqrServiceResult_Location : string;
  AzqrServiceResult_Recommendations : list ResultRow }.

(** An order in which a [range] loop may visit a Go map: each entry once.
    Go fixes no more than that. *)
Definition enumerates {V} (range : gmap string V -> list (string * V)) : Prop :=
  forall m, range m ≡ₚ map_to_list m.

Section RecommendationEngine.

Variable range :
  gmap string AzqrRecommendation -> list (string * AzqrRecommendation).

(** Modelled from the spec: "invoke the predicate with the resource and the
    shared context"; the predicate's (broken, detail) pair becomes the row of
    its rule.  [RecommendationEngine] is not among the sources. *)
Definition evaluate (rule : AzqrRecommendation) (resource : target)
    (ctx : ScanContext) : Go ResultRow :=
  '(b, d) ← AzqrRecommendation_Eval rule resource ctx;
  mret {| ruleId := AzqrRecommendation_RecommendationID rule;
          broken := b;
          detail := d |}.

(** Modelled from the spec: "for each rule in the table", one row after the
    other. *)
Fixpoint evaluate_each (entries : list (string * AzqrRecommendation))
    (resource : target) (ctx : ScanContext) : Go (list ResultRow) :=
  match entries with
  | [] => mret []
  | (_, rule) :: entries' =>
      row ← evaluate rule resource ctx;
      rows ← evaluate_each entries' resource ctx;
      mret (row :: rows)
  end.

(** Modelled from the spec: [RecommendationEngine.EvaluateRecommendations],
    which is not among the sources: "given a rule table and one resource
    instance, evaluates every applicable rule and returns one result row per
    rule".  The spec iterates "in the table's declared order"; the table the
    callers pass is a Go map, which keeps no such order, so the rules are
    visited in the order [range] enumerates the map. *)
Definition EvaluateRecommendations (rules : gmap string AzqrRecommendation)
    (resource : target) (ctx : ScanContext) : Go (list ResultRow) :=
  evaluate_each (range rules) resource ctx.

End RecommendationEngine.

(** [row] is the row of [rule] for the resource: it names the rule and holds
    the pair its predicate returns. *)
Definition row_of (resource : target) (ctx : ScanContext)
    (rule : AzqrRecommendation) (row : ResultRow) : Prop :=
  ruleId row = AzqrRecommendation_RecommendationID rule /\
  exists m0 m1,
    AzqrRecommendation_Eval rule resource ctx m0
    = Returned ((broken row, detail row), m1).

(** Modelled from the spec: the build of the diagnostics-settings index, which
    is not among the sources: "for every setting found, records the owning
    resource id (lower-cased) as has-diagnostics". *)
Definition DiagnosticsSettingsIndex_Build (owners : list string)
    : gmap string bool :=
  foldr (fun id m => <[strings.ToLower id := true]> m) ∅ owners.

(** The keys of an index are lower-cased resource ids. *)
Definition normalized (index : gmap string bool) : Prop :=
  forall k, k ∈ dom index -> strings.ToLower k = k.

End azqr.

(** ** Package [scanners]: the earlier rule type

    The Event Hub and AKS tables are written against the earlier package
    [scanners]; its [ScanContext] is the one above.  [Category],
    [Subcategory] and [Severity] are left out as before. *)

Module scanners.

(** The diagnostics-settings scanner a resource scanner holds.  Its method
    [HasDiagnostics] is not among the sources: it is a field here, returning
    Go's pair of a boolean and an error ([None] is the nil error). *)
Record DiagnosticsSettingsScanner := {
  HasDiagnostics : string -> bool * option error }.

Record AzureRule := {
  AzureRule_Id : string;
  AzureRule_Description : string;
  AzureRule_Eval : target -> azqr.ScanContext -> Go (bool * string);
  AzureRule_Url : string }.

End scanners.

(** ** Package [evh]: the Event Hub rules *)

Module evh.
Import armeventhub.

Record EventHubScanner := {
  EventHubScanner_diagnosticsSettings : scanners.DiagnosticsSettingsScanner }.

Section Rules.

Variable a : EventHubScanner.

Definition evh_001 (target : target) (scanContext : azqr.ScanContext)
    : Go (bool * string) :=
  match target with
  | EHNamespace_ptr service =>
      id ← deref (EHNamespace_ID service);
      let '(hasDiagnostics, err) :=
        scanners.HasDiagnostics (EventHubScanner_diagnosticsSettings a) id in
      match err with
      | Some err =>
          name ← deref (EHNamespace_Name service);
          fatal ("Error checking diagnostic settings for service "
                 ++ name ++ ": " ++ err)
      | None => mret (negb hasDiagnostics, strconv.FormatBool hasDiagnostics)
      end
  | _ => panic
  end.

Definition evh_002 (target : target) (scanContext : azqr.ScanContext)
    : Go (bool * string) :=
  match target with
  | EHNamespace_ptr i =>
      p ← deref (EHNamespace_Properties i);
      zones ← deref (EHNamespaceProperties_ZoneRedundant p);
      mret (negb zones, strconv.FormatBool zones)
  | _ => panic
  end.

Definition evh_003 (target : target) (scanContext : azqr.ScanContext)
    : Go (bool * string) :=
  match target with
  | EHNamespace_ptr i =>
      s ← deref (EHNamespace_SKU i);
      sku ← deref (SKU_Name s);
      let sla :=
        if negb (strings.Contains sku "Basic")
           && negb (strings.Contains sku "Standard")
        then "99.99%" else "99.95%" in
      mret (false, sla)
  | _ => panic
  end.

Definition evh_004 (target : target) (scanContext : azqr.ScanContext)
    : Go (bool * string) :=
  match target with
  | EHNamespace_ptr i =>
      p ← deref (EHNamespace_Properties i);
      let pe :=
        bool_decide
          (0 < len (EHNamespaceProperties_PrivateEndpointConnections p)) in
      mret (negb pe, strconv.FormatBool pe)
  | _ => panic
  end.

Definition evh_005 (target : target) (scanContext : azqr.ScanContext)
    : Go (bool * string) :=
  match target with
  | EHNamespace_ptr i =>
      s ← deref (EHNamespace_SKU i);
      sku ← deref (SKU_Name s);
      mret (false, sku)
  | _ => panic
  end.

Definition evh_006 (target : target) (scanContext : azqr.ScanContext)
    : Go (bool * string) :=
  match target with
  | EHNamespace_ptr c =>
      name ← deref (EHNamespace_Name c);
      let caf := strings.HasPrefix name "evh" in
      mret (negb caf, strconv.FormatBool caf)
  | _ => panic
  end.

(** The entries of the map literal [GetRules] returns, as declared. *)
Definition GetRules_literal : list (string * scanners.AzureRule) :=
  [ ("DiagnosticSettings",
     {| scanners.AzureRule_Id := "evh-001";
        scanners.AzureRule_Description :=
          "Event Hub Namespace should have diagnostic settings enabled";
        scanners.AzureRule_Eval := evh_001;
        scanners.AzureRule_Url :=
          "https://learn.microsoft.com/en-us/azure/event-hubs/monitor-event-hubs#collection-and-routing" |});
    ("AvailabilityZones",
     {| scanners.AzureRule_Id := "evh-002";
        scanners.AzureRule_Description :=
          "Event Hub Namespace should have availability zones enabled";
        scanners.AzureRule_Eval := evh_002;
        scanners.AzureRule_Url :=
          "https://learn.microsoft.com/en-us/azure/event-hubs/event-hubs-premium-overview#high-availability-with-availability-zones" |});
    ("SLA",
     {| scanners.AzureRule_Id := "evh-003";
        scanners.AzureRule_Description :=
          "Event Hub Namespace should have a SLA";
        scanners.AzureRule_Eval := evh_003;
        scanners.AzureRule_Url :=
          "https://www.azure.cn/en-us/support/sla/event-hubs/" |});
    ("Private",
     {| scanners.AzureRule_Id := "evh-004";
        scanners.AzureRule_Description :=
          "Event Hub Namespace should have private endpoints enabled";
        scanners.AzureRule_Eval := evh_004;
        scanners.AzureRule_Url :=
          "https://learn.microsoft.com/en-us/azure/event-hubs/network-security" |});
    ("SKU",
     {| scanners.AzureRule_Id := "evh-005";
        scanners.AzureRule_Description := "Event Hub Namespace SKU";
        scanners.AzureRule_Eval := evh_005;
        scanners.AzureRule_Url :=
          "https://learn.microsoft.com/en-us/azure/event-hubs/compare-tiers" |});
    ("CAF",
     {| scanners.AzureRule_Id := "evh-006";
        scanners.AzureRule_Description :=
          "Event Hub Namespace Name should comply with naming conventions";
        scanners.AzureRule_Eval := evh_006;
        scanners.AzureRule_Url :=
          "https://learn.microsoft.com/en-us/azure/cloud-adoption-framework/ready/azure-best-practices/resource-abbreviations" |}) ].

(** [GetRules]: the Go map the literal denotes. *)
Definition GetRules : gmap string scanners.AzureRule :=
  list_to_map GetRules_literal.

End Rules.

(** The fields the Event Hub predicates dereference are all set. *)
Definition populated (i : EHNamespace) : Prop :=
  is_Some (EHNamespace_ID i) /\
  is_Some (EHNamespace_Name i) /\
  (exists p, EHNamespace_Properties i = Some p /\
             is_Some (EHNamespaceProperties_ZoneRedundant p)) /\
  (exists s, EHNamespace_SKU i = Some s /\ is_Some (SKU_Name s)).

End evh.

(** ** Loops *)

(** [x == nil] on a slice. *)
Definition is_nil {A} (s : slice A) : bool :=
  match s with
  | None => true
  | Some _ => false
  end.

(** A [for ... range] loop whose body may return from the enclosing function:
    [Some r] is [return r], [None] falls through to the next element.  The
    result is [None] when the loop ends without returning. *)
Fixpoint for_range {A R} (l : list A) (body : A -> option R) : option R :=
  match l with
  | [] => None
  | x :: l' =>
      match body x with
      | Some r => Some r
      | None => for_range l' body
      end
  end.

(** ** Package [aks]: the managed-cluster rules *)

Module aks.
Import armcontainerservice.

Record AKSScanner := {
  AKSScanner_diagnosticsSettings : scanners.DiagnosticsSettingsScanner }.

(** The loop of aks-002 and aks-003: [zones] starts true and is cleared by
    every profile whose [AvailabilityZones] is nil or has at most one
    element. *)
Definition zones_loop (profiles : slice ManagedClusterAgentPoolProfile)
    : bool :=
  foldl
    (fun zones profile =>
       let az := ManagedClusterAgentPoolProfile_AvailabilityZones profile in
       if is_nil az || (negb (is_nil az) && (len az <=? 1)%nat)
       then false else zones)
    true (elems profiles).

(** The tier the SKU rules work with: ["Free"] unless the SKU and its tier
    are both set. *)
Definition sku_tier (c : ManagedCluster) : string :=
  match ManagedCluster_SKU c with
  | Some s =>
      match ManagedClusterSKU_Tier s with
      | Some tier => tier
      | None => "Free"
      end
  | None => "Free"
  end.

Section Rules.

Variable a : AKSScanner.

Definition aks_001 (target : target) (scanContext : azqr.ScanContext)
    : Go (bool * string) :=
  match target with
  | ManagedCluster_ptr service =>
      id ← deref (ManagedCluster_ID service);
      let '(hasDiagnostics, err) :=
        scanners.HasDiagnostics (AKSScanner_diagnosticsSettings a) id in
      match err with
      | Some err =>
          name ← deref (ManagedCluster_Name service);
          fatal ("Error checking diagnostic settings for service "
                 ++ name ++ ": " ++ err)
      | None => mret (negb hasDiagnostics, "")
      end
  | _ => panic
  end.

Definition aks_002 (target : target) (scanContext : azqr.ScanContext)
    : Go (bool * string) :=
  match target with
  | ManagedCluster_ptr cluster =>
      p ← deref (ManagedCluster_Properties cluster);
      let zones := zones_loop (ManagedClusterProperties_AgentPoolProfiles p) in
      mret (negb zones, "")
  | _ => panic
  end.

Definition aks_003 (target : target) (scanContext : azqr.ScanContext)
    : Go (bool * string) :=
  match target with
  | ManagedCluster_ptr c =>
      p ← deref (ManagedCluster_Properties c);
      let zones := zones_loop (ManagedClusterProperties_AgentPoolProfiles p) in
      let sku := sku_tier c in
      let sla :=
        if negb (strings.Contains sku "Free")
        then (if zones then "99.95%" else "99.9%")
        else "None" in
      mret (String.eqb sla "None", sla)
  | _ => panic
  end.

Definition aks_004 (target : target) (scanContext : azqr.ScanContext)
    : Go (bool * string) :=
  match target with
  | ManagedCluster_ptr c =>
      p ← deref (ManagedCluster_Properties c);
      let pe :=
        match ManagedClusterProperties_APIServerAccessProfile p with
        | Some ap =>
            match ManagedClusterAPIServerAccessProfile_EnablePrivateCluster ap
            with
            | Some enabled => enabled
            | None => false
            end
        | None => false
        end in
      mret (negb pe, "")
  | _ => panic
  end.

Definition aks_005 (target : target) (scanContext : azqr.ScanContext)
    : Go (bool * string) :=
  match target with
  | ManagedCluster_ptr c =>
      let sku := sku_tier c in
      mret (String.eqb sku "Free", sku)
  | _ => panic
  end.

Definition aks_006 (target : target) (scanContext : azqr.ScanContext)
    : Go (bool * string) :=
  match target with
  | ManagedCluster_ptr c =>
      name ← deref (ManagedCluster_Name c);
      let caf := strings.HasPrefix name "aks" in
      mret (negb caf, "")
  | _ => panic
  end.

Definition aks_007 (target : target) (scanContext : azqr.ScanContext)
    : Go (bool * string) :=
  match target with
  | ManagedCluster_ptr c =>
      p ← deref (ManagedCluster_Properties c);
      let aad :=
        match ManagedClusterProperties_AADProfile p with
        | Some profile =>
            match ManagedClusterAADProfile_Managed profile with
            | Some managed => managed
            | None => false
            end
        | None => false
        end in
      mret (negb aad, "")
  | _ => panic
  end.

Definition aks_008 (target : target) (scanContext : azqr.ScanContext)
    : Go (bool * string) :=
  match target with
  | ManagedCluster_ptr c =>
      p ← deref (ManagedCluster_Properties c);
      rbac ← deref (ManagedClusterProperties_EnableRBAC p);
      mret (negb rbac, "")
  | _ => panic
  end.

Definition aks_009 (target : target) (scanContext : azqr.ScanContext)
    : Go (bool * string) :=
  match target with
  | ManagedCluster_ptr c =>
      p ← deref (ManagedCluster_Properties c);
      match ManagedClusterProperties_DisableLocalAccounts p with
      | Some true => mret (false, "")
      | _ => mret (true, "")
      end
  | _ => panic
  end.

Definition aks_010 (target : target) (scanContext : azqr.ScanContext)
    : Go (bool * string) :=
  match target with
  | ManagedCluster_ptr c =>
      props ← deref (ManagedCluster_Properties c);
      match ManagedClusterProperties_AddonProfiles props
              !! "httpApplicationRouting" with
      | Some p =>
          p ← deref p;
          enabled ← deref (ManagedClusterAddonProfile_Enabled p);
          mret (enabled, "")
      | None => mret (false, "")
      end
  | _ => panic
  end.

Definition aks_011 (target : target) (scanContext : azqr.ScanContext)
    : Go (bool * string) :=
  match target with
  | ManagedCluster_ptr c =>
      props ← deref (ManagedCluster_Properties c);
      match ManagedClusterProperties_AddonProfiles props !! "omsagent" with
      | Some p =>
          p ← deref p;
          enabled ← deref (ManagedClusterAddonProfile_Enabled p);
          mret (negb enabled, "")
      | None => mret (true, "")
      end
  | _ => panic
  end.

Definition aks_012 (target : target) (scanContext : azqr.ScanContext)
    : Go (bool * string) :=
  match target with
  | ManagedCluster_ptr c =>
      p ← deref (ManagedCluster_Properties c);
      n ← deref (ManagedClusterProperties_NetworkProfile p);
      outboundType ← deref (NetworkProfile_OutboundType n);
      let out := String.eqb outboundType OutboundTypeUserDefinedRouting in
      mret (negb out, "")
  | _ => panic
  end.

Definition aks_013 (target : target) (scanContext : azqr.ScanContext)
    : Go (bool * string) :=
  match target with
  | ManagedCluster_ptr c =>
      p ← deref (ManagedCluster_Properties c);
      n ← deref (ManagedClusterProperties_NetworkProfile p);
      networkPlugin ← deref (NetworkProfile_NetworkPlugin n);
      let out := String.eqb networkPlugin NetworkPluginKubenet in
      mret (out, "")
  | _ => panic
  end.

Definition aks_014 (target : target) (scanContext : azqr.ScanContext)
    : Go (bool * string) :=
  match target with
  | ManagedCluster_ptr c =>
      props ← deref (ManagedCluster_Properties c);
      let profiles := ManagedClusterProperties_AgentPoolProfiles props in
      let in_loop :=
        if negb (is_nil profiles)
        then for_range (elems profiles)
               (fun p =>
                  match ManagedClusterAgentPoolProfile_EnableAutoScaling p with
                  | Some enabled => Some (negb enabled, "")
                  | None => Some (true, "")
                  end)
        else None in
      match in_loop with
      | Some r => mret r
      | None => mret (true, "")
      end
  | _ => panic
  end.

Definition aks_015 (target : target) (scanContext : azqr.ScanContext)
    : Go (bool * string) :=
  match target with
  | ManagedCluster_ptr c =>
      match ManagedCluster_Tags c with
      | None => mret (true, "")
      | Some tags => mret (bool_decide (size tags = 0), "")
      end
  | _ => panic
  end.

Definition rule (id description : string)
    (eval : target -> azqr.ScanContext -> Go (bool * string)) (url : string)
    : scanners.AzureRule :=
  {| scanners.AzureRule_Id := id;
     scanners.AzureRule_Description := description;
     scanners.AzureRule_Eval := eval;
     scanners.AzureRule_Url := url |}.

(** The entries of the map literal [GetRules] returns, as declared. *)
Definition GetRules_literal : list (string * scanners.AzureRule) :=
  [ ("DiagnosticSettings",
     rule "aks-001" "AKS Cluster should have diagnostic settings enabled"
       aks_001
       "https://learn.microsoft.com/en-us/azure/aks/monitor-aks#collect-resource-logs");
    ("AvailabilityZones",
     rule "aks-002" "AKS Cluster should have availability zones enabled"
       aks_002 "https://learn.microsoft.com/en-us/azure/aks/availability-zones");
    ("SLA",
     rule "aks-003" "AKS Cluster should have an SLA" aks_003
       "https://learn.microsoft.com/en-us/azure/aks/free-standard-pricing-tiers#uptime-sla-terms-and-conditions");
    ("Private",
     rule "aks-004" "AKS Cluster should be private" aks_004
       "https://learn.microsoft.com/en-us/azure/aks/private-clusters");
    ("SKU",
     rule "aks-005" "AKS Production Cluster should use Standard SKU" aks_005
       "https://learn.microsoft.com/en-us/azure/aks/free-standard-pricing-tiers");
    ("CAF",
     rule "aks-006" "AKS Name should comply with naming conventions" aks_006
       "https://learn.microsoft.com/en-us/azure/cloud-adoption-framework/ready/azure-best-practices/resource-abbreviations");
    ("aks-007",
     rule "aks-007" "AKS should integrate authentication with AAD (Managed)"
       aks_007 "https://learn.microsoft.com/en-us/azure/aks/managed-azure-ad");
    ("aks-008",
     rule "aks-008" "AKS should be RBAC enabled." aks_008
       "https://learn.microsoft.com/azure/aks/manage-azure-rbac");
    ("aks-009",
     rule "aks-009" "AKS should have local accounts disabled" aks_009
       "https://learn.microsoft.com/azure/aks/managed-aad#disable-local-accounts");
    ("aks-010",
     rule "aks-010" "AKS should have httpApplicationRouting disabled" aks_010
       "https://learn.microsoft.com/azure/aks/http-application-routing");
    ("aks-011",
     rule "aks-011" "AKS should have Container Insights enabled" aks_011
       "https://learn.microsoft.com/azure/azure-monitor/insights/container-insights-overview");
    ("aks-012",
     rule "aks-012"
       "AKS should have outbound type set to user defined routing" aks_012
       "https://learn.microsoft.com/azure/aks/limit-egress-traffic");
    ("aks-013",
     rule "aks-013" "AKS should avoid using kubenet network plugin" aks_013
       "https://learn.microsoft.com/azure/aks/operator-best-practices-network");
    ("aks-014",
     rule "aks-014" "AKS should have autoscaler enabled" aks_014
       "https://learn.microsoft.com/azure/aks/concepts-scale");
    ("aks-015",
     rule "aks-015" "AKS should have tags" aks_015
       "https://learn.microsoft.com/en-us/azure/azure-resource-manager/management/tag-resources?tabs=json") ].

(** [GetRules]: the Go map the literal denotes. *)
Definition GetRules : gmap string scanners.AzureRule :=
  list_to_map GetRules_literal.

End Rules.

(** The fields the AKS predicates dereference without a nil test are all set:
    the id, the name, the properties, EnableRBAC, the network profile with
    its outbound type and plugin, and the two add-on profiles the rules look
    up, when present, with their Enabled flag. *)
Definition populated (c : ManagedCluster) : Prop :=
  is_Some (ManagedCluster_ID c) /\
  is_Some (ManagedCluster_Name c) /\
  exists p,
    ManagedCluster_Properties c = Some p /\
    is_Some (ManagedClusterProperties_EnableRBAC p) /\
    (exists n, ManagedClusterProperties_NetworkProfile p = Some n /\
               is_Some (NetworkProfile_OutboundType n) /\
               is_Some (NetworkProfile_NetworkPlugin n)) /\
    (forall k v,
       k = "httpApplicationRouting" \/ k = "omsagent" ->
       ManagedClusterProperties_AddonProfiles p !! k = Some v ->
       exists addon, v = Some addon /\
                     is_Some (ManagedClusterAddonProfile_Enabled addon)).

End aks.

(** ** Package [dbw]: the Databricks rules *)

Module dbw.
Import armdatabricks.

Definition dbw_001 (target : target) (scanContext : azqr.ScanContext)
    : Go (bool * string) :=
  match target with
  | Workspace_ptr service =>
      id ← deref (Workspace_ID service);
      let ok :=
        match azqr.ScanContext_DiagnosticsSettings scanContext
                !! strings.ToLower id with
        | Some _ => true
        | None => false
        end in
      mret (negb ok, "")
  | _ => panic
  end.

Definition dbw_003 (target : target) (scanContext : azqr.ScanContext)
    : Go (bool * string) :=
  mret (false, "99.95%").

Definition dbw_004 (target : target) (scanContext : azqr.ScanContext)
    : Go (bool * string) :=
  match target with
  | Workspace_ptr i =>
      p ← deref (Workspace_Properties i);
      let pe :=
        bool_decide
          (0 < len (WorkspaceProperties_PrivateEndpointConnections p)) in
      mret (negb pe, "")
  | _ => panic
  end.

Definition dbw_005 (target : target) (scanContext : azqr.ScanContext)
    : Go (bool * string) :=
  match target with
  | Workspace_ptr i =>
      s ← deref (Workspace_SKU i);
      sku ← deref (SKU_Name s);
      mret (false, sku)
  | _ => panic
  end.

Definition dbw_006 (target : target) (scanContext : azqr.ScanContext)
    : Go (bool * string) :=
  match target with
  | Workspace_ptr c =>
      name ← deref (Workspace_Name c);
      let caf := strings.HasPrefix name "dbw" in
      mret (negb caf, "")
  | _ => panic
  end.

(** [EnableNoPublicIP.Value == to.Ptr(true)] compares two addresses, the right
    one just allocated; the right operand is evaluated only when
    [EnableNoPublicIP] is not nil. *)
Definition dbw_007 (target : target) (scanContext : azqr.ScanContext)
    : Go (bool * string) :=
  match target with
  | Workspace_ptr c =>
      p ← deref (Workspace_Properties c);
      q ← deref (WorkspaceProperties_Parameters p);
      broken ←
        match WorkspaceCustomParameters_EnableNoPublicIP q with
        | Some e =>
            fresh_ptr ← to.Ptr true;
            mret (bool_decide
                    (WorkspaceNoPublicIPBooleanParameter_Value e
                     = Some fresh_ptr))
        | None => mret false
        end;
      mret (broken, "")
  | _ => panic
  end.

Definition recommendation (id description : string)
    (eval : target -> azqr.ScanContext -> Go (bool * string)) (url : string)
    : azqr.AzqrRecommendation :=
  {| azqr.AzqrRecommendation_RecommendationID := id;
     azqr.AzqrRecommendation_ResourceType := "Microsoft.Databricks/workspaces";
     azqr.AzqrRecommendation_Recommendation := description;
     azqr.AzqrRecommendation_Eval := eval;
     azqr.AzqrRecommendation_Url := url |}.

(** The entries of the map literal [GetRecommendations] returns, as
    declared. *)
Definition GetRecommendations_literal
    : list (string * azqr.AzqrRecommendation) :=
  [ ("dbw-001",
     recommendation "dbw-001"
       "Azure Databricks should have diagnostic settings enabled" dbw_001
       "https://learn.microsoft.com/en-us/azure/databricks/administration-guide/account-settings/audit-log-delivery");
    ("dbw-003",
     recommendation "dbw-003" "Azure Databricks should have a SLA" dbw_003
       "https://www.microsoft.com/licensing/docs/view/Service-Level-Agreements-SLA-for-Online-Services");
    ("dbw-004",
     recommendation "dbw-004"
       "Azure Databricks should have private endpoints enabled" dbw_004
       "https://learn.microsoft.com/en-us/azure/databricks/administration-guide/cloud-configurations/azure/private-link");
    ("dbw-005",
     recommendation "dbw-005" "Azure Databricks SKU" dbw_005
       "https://azure.microsoft.com/en-us/pricing/details/databricks/");
    ("dbw-006",
     recommendation "dbw-006"
       "Azure Databricks Name should comply with naming conventions" dbw_006
       "https://learn.microsoft.com/en-us/azure/cloud-adoption-framework/ready/azure-best-practices/resource-abbreviations");
    ("dbw-007",
     recommendation "dbw-007"
       "Azure Databricks should have the Public IP disabled" dbw_007
       "https://learn.microsoft.com/en-us/azure/databricks/security/network/secure-cluster-connectivity") ].

(** [GetRecommendations]: the Go map the literal denotes. *)
Definition GetRecommendations : gmap string azqr.AzqrRecommendation :=
  list_to_map GetRecommendations_literal.

(** The fields the Databricks predicates dereference without a nil test are
    all set. *)
Definition populated (w : Workspace) : Prop :=
  is_Some (Workspace_ID w) /\
  is_Some (Workspace_Name w) /\
  (exists p, Workspace_Properties w = Some p /\
             is_Some (WorkspaceProperties_Parameters p)) /\
  (exists s, Workspace_SKU w = Some s /\ is_Some (SKU_Name s)).

End dbw.

(** ** The resource-group scanners

    [VirtualMachineScaleSetScanner.Scan], [SignalRScanner.Scan] and
    [ContainerInstanceScanner.Scan] are the same function up to the resource
    type; it is written once over the resource type [R] and instantiated for
    each scanner. *)

(** A pager of the SDK: the pages [NextPage] returns one after the other while
    [More] holds, each the [Value] of a response or an error. *)
Definition pager (R : Type) : Type := list (list R + error).

Module scan.

Section ResourceGroupScan.

Context {R : Type}.

(** The scanner: its configuration and its SDK client, which gives the pager
    of a resource group. *)
Record Scanner := {
  Scanner_config : azqr.ScannerConfig;
  Scanner_client : string -> pager R }.

(** The fields [Scan] reads off a resource, and the resource as the
    [interface{}] handed to the engine. *)
Variables Name Type_ Location : R -> option string.
Variable as_target : R -> target.

(** [azqr.RecommendationEngine.EvaluateRecommendations] and the scanner's
    [GetRecommendations], which are not among the sources of these
    scanners. *)
Variable EvaluateRecommendations :
  gmap string azqr.AzqrRecommendation -> target -> azqr.ScanContext ->
  Go (list azqr.ResultRow).
Variable GetRecommendations : gmap string azqr.AzqrRecommendation.

(** The loop of [list] / [listSignalR] / [listInstances]: [acc] is the slice
    appended to so far. *)
Fixpoint list_loop (pages : pager R) (acc : list R) : list R * option error :=
  match pages with
  | [] => (acc, None)
  | inr err :: _ => ([], Some err)
  | inl value :: pages' => list_loop pages' (acc ++ value)
  end.

Definition list_ (c : Scanner) (resourceGroupName : string)
    : list R * option error :=
  list_loop (Scanner_client c resourceGroupName) [].

(** The loop of [Scan]: [results] is the slice appended to so far. *)
Fixpoint Scan_loop (c : Scanner) (resourceGroupName : string)
    (scanContext : azqr.ScanContext) (resources : list R)
    (results : list azqr.AzqrServiceResult)
    : Go (list azqr.AzqrServiceResult) :=
  match resources with
  | [] => mret results
  | w :: resources' =>
      rr ← EvaluateRecommendations GetRecommendations (as_target w)
             scanContext;
      name ← deref (Name w);
      type ← deref (Type_ w);
      location ← deref (Location w);
      Scan_loop c resourceGroupName scanContext resources'
        (results ++
         [ {| azqr.AzqrServiceResult_SubscriptionID :=
                azqr.ScannerConfig_SubscriptionID (Scanner_config c);
              azqr.AzqrServiceResult_SubscriptionName :=
                azqr.ScannerConfig_SubscriptionName (Scanner_config c);
              azqr.AzqrServiceResult_ResourceGroup := resourceGroupName;
              azqr.AzqrServiceResult_ServiceName := name;
              azqr.AzqrServiceResult_Type := type;
              azqr.AzqrServiceResult_Location := location;
              azqr.AzqrServiceResult_Recommendations := rr |} ])
  end.

(** [Scan]: Go's pair of the results and the error; the nil slice returned
    with an error is the empty list.  The call of [LogResourceGroupScan] that
    opens the function only logs and is left out. *)
Definition Scan (c : Scanner) (resourceGroupName : string)
    (scanContext : azqr.ScanContext)
    : Go (list azqr.AzqrServiceResult * option error) :=
  match list_ c resourceGroupName with
  | (_, Some err) => mret ([], Some err)
  | (resources, None) =>
      results ← Scan_loop c resourceGroupName scanContext resources [];
      mret (results, None)
  end.

(** What [Scan] is to append for the resource [w]: a result stamped with the
    configured subscription, the resource group, the resource's own name, type
    and location, and carrying rows the engine returns for [w]. *)
Definition stamped (c : Scanner) (resourceGroupName : string)
    (scanContext : azqr.ScanContext) (w : R) (r : azqr.AzqrServiceResult)
    : Prop :=
  azqr.AzqrServiceResult_SubscriptionID r
  = azqr.ScannerConfig_SubscriptionID (Scanner_config c) /\
  azqr.AzqrServiceResult_SubscriptionName r
  = azqr.ScannerConfig_SubscriptionName (Scanner_config c) /\
  azqr.AzqrServiceResult_ResourceGroup r = resourceGroupName /\
  Name w = Some (azqr.AzqrServiceResult_ServiceName r) /\
  Type_ w = Some (azqr.AzqrServiceResult_Type r) /\
  Location w = Some (azqr.AzqrServiceResult_Location r) /\
  exists m0 m1,
    EvaluateRecommendations GetRecommendations (as_target w) scanContext m0
    = Returned (azqr.AzqrServiceResult_Recommendations r, m1).

End ResourceGroupScan.

End scan.

Module vmss.
Import armcompute.

Definition ResourceTypes : list string :=
  ["Microsoft.Compute/virtualMachineScaleSets"].

Definition Scan :=
  scan.Scan VirtualMachineScaleSet_Name VirtualMachineScaleSet_Type
    VirtualMachineScaleSet_Location VirtualMachineScaleSet_ptr.

End vmss.

Module sigr.
Import armsignalr.

Definition ResourceTypes : list string :=
  ["Microsoft.SignalRService/SignalR"].

Definition Scan :=
  scan.Scan ResourceInfo_Name ResourceInfo_Type ResourceInfo_Location
    ResourceInfo_ptr.

End sigr.

Module ci.
Import armcontainerinstance.

Definition ResourceTypes : list string :=
  ["Microsoft.ContainerInstance/containerGroups"].

Definition Scan :=
  scan.Scan ContainerGroup_Name ContainerGroup_Type ContainerGroup_Location
    ContainerGroup_ptr.

End ci.

(** ** The Advisor scanner *)

Module advisor.
Import armadvisor.

Record AdvisorResult := {
  AdvisorResult_SubscriptionID : string;
  AdvisorResult_SubscriptionName : string;
  AdvisorResult_Name : string;
  AdvisorResult_Type : string;
  AdvisorResult_Category : string;
  AdvisorResult_Description : string;
  AdvisorResult_PotentialBenefits : string;
  AdvisorResult_Risk : string;
  AdvisorResult_LearnMoreLink : string }.

Record AdvisorScanner := {
  AdvisorScanner_config : azqr.ScannerConfig;
  AdvisorScanner_client : pager ResourceRecommendationBase }.

Section Scanner.

(** [azqr.ShouldSkipError], the shared error classifier, and the SDK's
    [armadvisor.NewRecommendationsClient]; neither is among the sources. *)
Variable ShouldSkipError : error -> bool.
Variable NewRecommendationsClient :
  azqr.ScannerConfig -> pager ResourceRecommendationBase + error.

(** [Init]: the scanner it sets up, or the error of the client constructor. *)
Definition Init (config : azqr.ScannerConfig) : AdvisorScanner + error :=
  match NewRecommendationsClient config with
  | inl client =>
      inl {| AdvisorScanner_config := config;
             AdvisorScanner_client := client |}
  | inr err => inr err
  end.

(** The paging loop of [ListRecommendations]. *)
Fixpoint list_loop (pages : pager ResourceRecommendationBase)
    (recommendations : list ResourceRecommendationBase)
    : list ResourceRecommendationBase * option error :=
  match pages with
  | [] => (recommendations, None)
  | inr err :: _ => ([], Some err)
  | inl value :: pages' => list_loop pages' (recommendations ++ value)
  end.

(** A string field that is set only when its pointer is not nil, and is the
    empty string otherwise. *)
Definition or_empty (p : option string) : string :=
  match p with
  | Some s => s
  | None => ""
  end.

(** The conversion loop of [ListRecommendations]. *)
Fixpoint convert_loop (s : AdvisorScanner)
    (recommendations : list ResourceRecommendationBase)
    (returnRecommendations : list AdvisorResult) : Go (list AdvisorResult) :=
  match recommendations with
  | [] => mret returnRecommendations
  | recommendation :: recommendations' =>
      p ← deref (ResourceRecommendationBase_Properties recommendation);
      let ar :=
        {| AdvisorResult_SubscriptionID :=
             azqr.ScannerConfig_SubscriptionID (AdvisorScanner_config s);
           AdvisorResult_SubscriptionName :=
             azqr.ScannerConfig_SubscriptionName (AdvisorScanner_config s);
           AdvisorResult_Name :=
             or_empty (RecommendationProperties_ImpactedValue p);
           AdvisorResult_Type :=
             or_empty (RecommendationProperties_ImpactedField p);
           AdvisorResult_Category :=
             or_empty (RecommendationProperties_Category p);
           AdvisorResult_Description :=
             or_empty (RecommendationProperties_ShortDescription p
                       ≫= ShortDescription_Problem);
           AdvisorResult_PotentialBenefits :=
             or_empty (RecommendationProperties_PotentialBenefits p);
           AdvisorResult_Risk := or_empty (RecommendationProperties_Risk p);
           AdvisorResult_LearnMoreLink :=
             or_empty (RecommendationProperties_LearnMoreLink p) |} in
      convert_loop s recommendations' (returnRecommendations ++ [ar])
  end.

Definition ListRecommendations (s : AdvisorScanner)
    : Go (list AdvisorResult * option error) :=
  match list_loop (AdvisorScanner_client s) [] with
  | (_, Some err) => mret ([], Some err)
  | (recommendations, None) =>
      returnRecommendations ← convert_loop s recommendations [];
      mret (returnRecommendations, None)
  end.

Definition Scan (scan : bool) (config : azqr.ScannerConfig)
    : Go (list AdvisorResult) :=
  let advisorResults : list AdvisorResult := [] in
  if scan then
    match Init config with
    | inr err => fatal "Failed to initialize Advisor Scanner"
    | inl s =>
        '(rec, err) ← ListRecommendations s;
        rec ←
          match err with
          | Some err =>
              if ShouldSkipError err
              then mret []
              else fatal "Failed to list Advisor recommendations"
          | None => mret rec
          end;
        mret (advisorResults ++ rec)%list
    end
  else mret advisorResults.

End Scanner.

End advisor.

(** What [ListRecommendations] is to produce for one recommendation of the
    scanner [s]: the configured subscription, and each field of the
    properties that is set, the empty string for a field that is nil. *)
Definition advisor_converted (s : advisor.AdvisorScanner)
    (recommendation : armadvisor.ResourceRecommendationBase)
    (ar : advisor.AdvisorResult) : Prop :=
  exists p,
    armadvisor.ResourceRecommendationBase_Properties recommendation = Some p /\
    advisor.AdvisorResult_SubscriptionID ar
    = azqr.ScannerConfig_SubscriptionID (advisor.AdvisorScanner_config s) /\
    advisor.AdvisorResult_SubscriptionName ar
    = azqr.ScannerConfig_SubscriptionName (advisor.AdvisorScanner_config s) /\
    advisor.AdvisorResult_Name ar
    = default "" (armadvisor.RecommendationProperties_ImpactedValue p) /\
    advisor.AdvisorResult_Type ar
    = default "" (armadvisor.RecommendationProperties_ImpactedField p) /\
    advisor.AdvisorResult_Category ar
    = default "" (armadvisor.RecommendationProperties_Category p) /\
    advisor.AdvisorResult_Description ar
    = match armadvisor.RecommendationProperties_ShortDescription p with
      | Some d => default "" (armadvisor.ShortDescription_Problem d)
      | None => ""
      end /\
    advisor.AdvisorResult_PotentialBenefits ar
    = default "" (armadvisor.RecommendationProperties_PotentialBenefits p) /\
    advisor.AdvisorResult_Risk ar
    = default "" (armadvisor.RecommendationProperties_Risk p) /\
    advisor.AdvisorResult_LearnMoreLink ar
    = default "" (armadvisor.RecommendationProperties_LearnMoreLink p).

(** ** The NSG scanner *)

Module armnetwork.

Record SecurityGroup := {
  SecurityGroup_ID : option string;
  SecurityGroup_Name : option string;
  SecurityGroup_Type : option string;
  SecurityGroup_Location : option string }.

End armnetwork.

Module nsg.
Import armnetwork.

Definition ResourceTypes : list string :=
  ["Microsoft.Network/networkSecurityGroups"].

(** The scanner: its configuration and its SDK client, which gives the pager
    over the security groups of the subscription. *)
Record NSGScanner := {
  NSGScanner_config : azqr.ScannerConfig;
  NSGScanner_client : pager SecurityGroup }.

Section Scanner.

(** [azqr.RecommendationEngine.EvaluateRecommendations], the scanner's
    [GetRecommendations] and [azqr.GetResourceGroupFromResourceID]; none is
    among the sources.  The engine is taken at the resource type, the
    security group being what it receives as [interface{}]. *)
Variable EvaluateRecommendations :
  gmap string azqr.AzqrRecommendation -> SecurityGroup -> azqr.ScanContext ->
  Go (list azqr.ResultRow).
Variable GetRecommendations : gmap string azqr.AzqrRecommendation.
Variable GetResourceGroupFromResourceID : string -> Go string.

(** The loop of [list]: [svcs] is the slice appended to so far. *)
Fixpoint list_loop (pages : pager SecurityGroup) (svcs : list SecurityGroup)
    : list SecurityGroup * option error :=
  match pages with
  | [] => (svcs, None)
  | inr err :: _ => ([], Some err)
  | inl value :: pages' => list_loop pages' (svcs ++ value)%list
  end.

Definition list_ (c : NSGScanner) : list SecurityGroup * option error :=
  list_loop (NSGScanner_client c) [].

(** The loop of [Scan]: [results] is the slice appended to so far.  The
    fields of the struct literal are evaluated in the order they are
    written. *)
Fixpoint Scan_loop (c : NSGScanner) (scanContext : azqr.ScanContext)
    (svcs : list SecurityGroup) (results : list azqr.AzqrServiceResult)
    : Go (list azqr.AzqrServiceResult) :=
  match svcs with
  | [] => mret results
  | w :: svcs' =>
      rr ← EvaluateRecommendations GetRecommendations w scanContext;
      id ← deref (SecurityGroup_ID w);
      resourceGroup ← GetResourceGroupFromResourceID id;
      name ← deref (SecurityGroup_Name w);
      type ← deref (SecurityGroup_Type w);
      location ← deref (SecurityGroup_Location w);
      Scan_loop c scanContext svcs'
        (results ++
         [ {| azqr.AzqrServiceResult_SubscriptionID :=
                azqr.ScannerConfig_SubscriptionID (NSGScanner_config c);
              azqr.AzqrServiceResult_SubscriptionName :=
                azqr.ScannerConfig_SubscriptionName (NSGScanner_config c);
              azqr.AzqrServiceResult_ResourceGroup := resourceGroup;
              azqr.AzqrServiceResult_ServiceName := name;
              azqr.AzqrServiceResult_Type := type;
              azqr.AzqrServiceResult_Location := location;
              azqr.AzqrServiceResult_Recommendations := rr |} ])%list
  end.

(** [Scan]: Go's pair of the results and the error; the nil slice returned
    with an error is the empty list.  The call of [LogSubscriptionScan] that
    opens the function only logs and is left out. *)
Definition Scan (c : NSGScanner) (scanContext : azqr.ScanContext)
    : Go (list azqr.AzqrServiceResult * option error) :=
  match list_ c with
  | (_, Some err) => mret ([], Some err)
  | (svcs, None) =>
      results ← Scan_loop c scanContext svcs [];
      mret (results, None)
  end.

(** What [Scan] is to append for the security group [w]: a result stamped
    with the configured subscription, the resource group read off the group's
    id, the group's own name, type and location, and carrying rows the engine
    returns for [w]. *)
Definition stamped (c : NSGScanner) (scanContext : azqr.ScanContext)
    (w : SecurityGroup) (r : azqr.AzqrServiceResult) : Prop :=
  azqr.AzqrServiceResult_SubscriptionID r
  = azqr.ScannerConfig_SubscriptionID (NSGScanner_config c) /\
  azqr.AzqrServiceResult_SubscriptionName r
  = azqr.ScannerConfig_SubscriptionName (NSGScanner_config c) /\
  (exists id m0 m1,
     SecurityGroup_ID w = Some id /\
     GetResourceGroupFromResourceID id m0
     = Returned (azqr.AzqrServiceResult_ResourceGroup r, m1)) /\
  SecurityGroup_Name w = Some (azqr.AzqrServiceResult_ServiceName r) /\
  SecurityGroup_Type w = Some (azqr.AzqrServiceResult_Type r) /\
  SecurityGroup_Location w = Some (azqr.AzqrServiceResult_Location r) /\
  exists m0 m1,
    EvaluateRecommendations GetRecommendations w scanContext m0
    = Returned (azqr.AzqrServiceResult_Recommendations r, m1).

End Scanner.

End nsg.

(** ** The Word report *)

Module word.

(** What ends up in the file: the heading paragraph and the text of the cells
    of the table, row by row. *)
Record document := {
  document_heading : string;
  document_table : list (list string) }.

(** [l[i]]: an index out of range panics. *)
Definition index {A} (l : list A) (i : nat) : Go A :=
  match l !! i with
  | Some a => mret a
  | None => panic
  end.

Section Report.

(** The errors of [os.Create], of [WriteTo] and of [Close] ([None] is the nil
    error); the file system is outside the sources. *)
Variables os_Create WriteTo Close : option error.

(** The inner loop over the cells of row [x]: [ys] are the column indices
    still to fill; cell [y] receives [records[x][y+1]]. *)
Fixpoint cells_loop (records : list (list string)) (x : nat) (ys : list nat)
    : Go (list string) :=
  match ys with
  | [] => mret []
  | y :: ys' =>
      record ← index records x;
      text ← index record (y + 1);
      cells ← cells_loop records x ys';
      mret (text :: cells)
  end.

(** The outer loop over the rows of the table: [xs] are the row indices still
    to fill, each row having [cols] cells. *)
Fixpoint rows_loop (records : list (list string)) (xs : list nat) (cols : nat)
    : Go (list (list string)) :=
  match xs with
  | [] => mret []
  | x :: xs' =>
      row ← cells_loop records x (seq 0 cols);
      table ← rows_loop records xs' cols;
      mret (row :: table)
  end.

(** [CreateWordReport], on the records [data.ServicesTable()] gives; that
    method is not among the sources.  [AddTable(rows, cols)] of the document
    library makes a table of [rows] rows of [cols] cells each, which the two
    loops fill; the file is created and written afterwards. *)
Definition CreateWordReport (records : list (list string)) : Go document :=
  let cols := 11 in
  let rows := length records in
  table ← rows_loop records (seq 0 rows) cols;
  match os_Create with
  | Some err => fatal "error creating word:"
  | None =>
      match WriteTo with
      | Some err => fatal "error creating word:"
      | None =>
          match Close with
          | Some err => fatal "error creating word:"
          | None =>
              mret {| document_heading := "Recommendations";
                      document_table := table |}
          end
      end
  end.

End Report.

End word.

(** ** Concrete inputs used in the statements below *)

Module examples.

Definition no_context : azqr.ScanContext :=
  {| azqr.ScanContext_DiagnosticsSettings := ∅ |}.

(** An Event Hub namespace of the Standard tier. *)
Definition standard_namespace : armeventhub.EHNamespace :=
  {| armeventhub.EHNamespace_ID := Some "/subscriptions/s/resourceGroups/g/providers/Microsoft.EventHub/namespaces/evh-one";
     armeventhub.EHNamespace_Name := Some "evh-one";
     armeventhub.EHNamespace_Properties :=
       Some {| armeventhub.EHNamespaceProperties_ZoneRedundant := Some true;
               armeventhub.EHNamespaceProperties_PrivateEndpointConnections :=
                 None |};
     armeventhub.EHNamespace_SKU :=
       Some {| armeventhub.SKU_Name := Some "Standard" |} |}.

Definition pool (zones : slice string) (autoscale : option bool)
    : armcontainerservice.ManagedClusterAgentPoolProfile :=
  {| armcontainerservice.ManagedClusterAgentPoolProfile_AvailabilityZones :=
       zones;
     armcontainerservice.ManagedClusterAgentPoolProfile_EnableAutoScaling :=
       autoscale |}.

Definition cluster_properties
    (pools : slice armcontainerservice.ManagedClusterAgentPoolProfile)
    (rbac : option bool)
    : armcontainerservice.ManagedClusterProperties :=
  {| armcontainerservice.ManagedClusterProperties_AgentPoolProfiles := pools;
     armcontainerservice.ManagedClusterProperties_APIServerAccessProfile :=
       None;
     armcontainerservice.ManagedClusterProperties_AADProfile := None;
     armcontainerservice.ManagedClusterProperties_EnableRBAC := rbac;
     armcontainerservice.ManagedClusterProperties_DisableLocalAccounts := None;
     armcontainerservice.ManagedClusterProperties_AddonProfiles := ∅;
     armcontainerservice.ManagedClusterProperties_NetworkProfile :=
       Some {| armcontainerservice.NetworkProfile_OutboundType :=
                 Some "loadBalancer";
               armcontainerservice.NetworkProfile_NetworkPlugin :=
                 Some "azure" |} |}.

(** A managed cluster of the Standard tier with the given pools. *)
Definition cluster
    (pools : slice armcontainerservice.ManagedClusterAgentPoolProfile)
    (rbac : option bool) : armcontainerservice.ManagedCluster :=
  {| armcontainerservice.ManagedCluster_ID := Some "/subscriptions/s/resourceGroups/g/providers/Microsoft.ContainerService/managedClusters/aks-one";
     armcontainerservice.ManagedCluster_Name := Some "aks-one";
     armcontainerservice.ManagedCluster_Properties :=
       Some (cluster_properties pools rbac);
     armcontainerservice.ManagedCluster_SKU :=
       Some {| armcontainerservice.ManagedClusterSKU_Tier :=
                 Some "Standard" |};
     armcontainerservice.ManagedCluster_Tags := None |}.

(** A Databricks workspace with the given id, whose [EnableNoPublicIP] is the
    given pointer. *)
Definition workspace (id : option string)
    (enableNoPublicIP :
       option armdatabricks.WorkspaceNoPublicIPBooleanParameter)
    : armdatabricks.Workspace :=
  {| armdatabricks.Workspace_ID := id;
     armdatabricks.Workspace_Name := Some "dbw-one";
     armdatabricks.Workspace_Properties :=
       Some {| armdatabricks.WorkspaceProperties_PrivateEndpointConnections :=
                 None;
               armdatabricks.WorkspaceProperties_Parameters :=
                 Some {| armdatabricks.WorkspaceCustomParameters_EnableNoPublicIP :=
                           enableNoPublicIP |} |};
     armdatabricks.Workspace_SKU :=
       Some {| armdatabricks.SKU_Name := Some "premium" |} |}.

(** [EnableNoPublicIP] with its [Value] at the given address. *)
Definition no_public_ip (value : option positive)
    : armdatabricks.WorkspaceNoPublicIPBooleanParameter :=
  {| armdatabricks.WorkspaceNoPublicIPBooleanParameter_Value := value |}.

(** The index built from one diagnostic setting, owned by a workspace whose id
    the API spelled with capitals. *)
Definition one_setting : azqr.ScanContext :=
  {| azqr.ScanContext_DiagnosticsSettings :=
       azqr.DiagnosticsSettingsIndex_Build
         ["/subscriptions/S/resourceGroups/G/providers/Microsoft.Databricks/workspaces/DBW-One"] |}.

Definition config : azqr.ScannerConfig :=
  {| azqr.ScannerConfig_SubscriptionID :=
       "00000000-0000-0000-0000-000000000001";
     azqr.ScannerConfig_SubscriptionName := "production" |}.

(** A classifier that skips the error of a subscription not registered for
    the resource provider, and no other. *)
Definition skip_missing_registration (err : string) : bool :=
  String.eqb err "MissingSubscriptionRegistration".

(** An Advisor client whose first page fails with the given error. *)
Definition failing_client (err : string) (config : azqr.ScannerConfig)
    : pager armadvisor.ResourceRecommendationBase + string :=
  inl [inr err].

Definition scale_set (name location : string)
    : armcompute.VirtualMachineScaleSet :=
  {| armcompute.VirtualMachineScaleSet_ID := None;
     armcompute.VirtualMachineScaleSet_Name := Some name;
     armcompute.VirtualMachineScaleSet_Type :=
       Some "Microsoft.Compute/virtualMachineScaleSets";
     armcompute.VirtualMachineScaleSet_Location := Some location |}.

(** A scale-set scanner whose listing comes in two pages. *)
Definition two_pages : @scan.Scanner armcompute.VirtualMachineScaleSet :=
  {| scan.Scanner_config := config;
     scan.Scanner_client := fun _ =>
       [ inl [scale_set "vmss-a" "westeurope"; scale_set "vmss-b" "northeurope"];
         inl [scale_set "vmss-c" "westeurope"] ] |}.

(** A table with the one rule of the sources that reads nothing off its
    target. *)
Definition sla_only : gmap string azqr.AzqrRecommendation :=
  list_to_map
    [ ("dbw-003",
       dbw.recommendation "dbw-003" "Azure Databricks should have a SLA"
         dbw.dbw_003
         "https://www.microsoft.com/licensing/docs/view/Service-Level-Agreements-SLA-for-Online-Services") ].

(** The first two rules of the Databricks table, declared in one order and in
    the other. *)
Definition declared_one : list (string * azqr.AzqrRecommendation) :=
  [ ("dbw-001",
     dbw.recommendation "dbw-001"
       "Azure Databricks should have diagnostic settings enabled" dbw.dbw_001
       "https://learn.microsoft.com/en-us/azure/databricks/administration-guide/account-settings/audit-log-delivery");
    ("dbw-003",
     dbw.recommendation "dbw-003" "Azure Databricks should have a SLA"
       dbw.dbw_003
       "https://www.microsoft.com/licensing/docs/view/Service-Level-Agreements-SLA-for-Online-Services") ].

Definition declared_other : list (string * azqr.AzqrRecommendation) :=
  [ ("dbw-003",
     dbw.recommendation "dbw-003" "Azure Databricks should have a SLA"
       dbw.dbw_003
       "https://www.microsoft.com/licensing/docs/view/Service-Level-Agreements-SLA-for-Online-Services");
    ("dbw-001",
     dbw.recommendation "dbw-001"
       "Azure Databricks should have diagnostic settings enabled" dbw.dbw_001
       "https://learn.microsoft.com/en-us/azure/databricks/administration-guide/account-settings/audit-log-delivery") ].

(** A diagnostics-settings scanner that gives every id the same answer. *)
Definition answering (answer : bool * option string)
    : scanners.DiagnosticsSettingsScanner :=
  {| scanners.HasDiagnostics := fun _ => answer |}.

Definition evh_scanner (answer : bool * option string) : evh.EventHubScanner :=
  {| evh.EventHubScanner_diagnosticsSettings := answering answer |}.

Definition aks_scanner (answer : bool * option string) : aks.AKSScanner :=
  {| aks.AKSScanner_diagnosticsSettings := answering answer |}.

(** A namespace of which the API reported no zone redundancy at all. *)
Definition namespace_without_zones : armeventhub.EHNamespace :=
  {| armeventhub.EHNamespace_ID := Some "/subscriptions/s/resourceGroups/g/providers/Microsoft.EventHub/namespaces/evh-two";
     armeventhub.EHNamespace_Name := Some "evh-two";
     armeventhub.EHNamespace_Properties :=
       Some {| armeventhub.EHNamespaceProperties_ZoneRedundant := None;
               armeventhub.EHNamespaceProperties_PrivateEndpointConnections :=
                 None |};
     armeventhub.EHNamespace_SKU :=
       Some {| armeventhub.SKU_Name := Some "Basic" |} |}.

(** The three scale sets of [two_pages], listed in one page. *)
Definition one_page : @scan.Scanner armcompute.VirtualMachineScaleSet :=
  {| scan.Scanner_config := config;
     scan.Scanner_client := fun _ =>
       [ inl [scale_set "vmss-a" "westeurope";
              scale_set "vmss-b" "northeurope";
              scale_set "vmss-c" "westeurope"] ] |}.

(** A scale set of which the API reported no name. *)
Definition nameless_scale_set : armcompute.VirtualMachineScaleSet :=
  {| armcompute.VirtualMachineScaleSet_ID := None;
     armcompute.VirtualMachineScaleSet_Name := None;
     armcompute.VirtualMachineScaleSet_Type :=
       Some "Microsoft.Compute/virtualMachineScaleSets";
     armcompute.VirtualMachineScaleSet_Location := Some "westeurope" |}.

Definition with_nameless : @scan.Scanner armcompute.VirtualMachineScaleSet :=
  {| scan.Scanner_config := config;
     scan.Scanner_client := fun _ =>
       [ inl [scale_set "vmss-a" "westeurope"];
         inl [nameless_scale_set; scale_set "vmss-c" "westeurope"] ] |}.

Definition security_group (id : option string) (name : string)
    : armnetwork.SecurityGroup :=
  {| armnetwork.SecurityGroup_ID := id;
     armnetwork.SecurityGroup_Name := Some name;
     armnetwork.SecurityGroup_Type :=
       Some "Microsoft.Network/networkSecurityGroups";
     armnetwork.SecurityGroup_Location := Some "westeurope" |}.

Definition nsg_scanner (pages : pager armnetwork.SecurityGroup)
    : nsg.NSGScanner :=
  {| nsg.NSGScanner_config := config; nsg.NSGScanner_client := pages |}.

(** An engine that has no row to report, and a resource-group helper that
    knows the one group of the examples. *)
Definition no_rows (rules : gmap string azqr.AzqrRecommendation)
    (w : armnetwork.SecurityGroup) (ctx : azqr.ScanContext)
    : Go (list azqr.ResultRow) :=
  mret [].

Definition group_of (id : string) : Go string :=
  if strings.HasPrefix id "/subscriptions/s/resourceGroups/rg-net/"
  then mret "rg-net" else panic.

Definition advisor_recommendation (impacted : option string)
    (problem : option armadvisor.ShortDescription)
    : armadvisor.ResourceRecommendationBase :=
  {| armadvisor.ResourceRecommendationBase_Properties :=
       Some {| armadvisor.RecommendationProperties_ImpactedValue := impacted;
               armadvisor.RecommendationProperties_Category := Some "Cost";
               armadvisor.RecommendationProperties_ShortDescription :=
                 problem;
               armadvisor.RecommendationProperties_ImpactedField := None;
               armadvisor.RecommendationProperties_PotentialBenefits := None;
               armadvisor.RecommendationProperties_Risk := None;
               armadvisor.RecommendationProperties_LearnMoreLink := None |} |}.

Definition bare_recommendation : armadvisor.ResourceRecommendationBase :=
  {| armadvisor.ResourceRecommendationBase_Properties := None |}.

(** An Advisor client with the given pages, and one that cannot be
    constructed. *)
Definition advisor_client (pages : pager armadvisor.ResourceRecommendationBase)
    (config : azqr.ScannerConfig)
    : pager armadvisor.ResourceRecommendationBase + string :=
  inl pages.

Definition no_client (err : string) (config : azqr.ScannerConfig)
    : pager armadvisor.ResourceRecommendationBase + string :=
  inr err.

(** A record of the services table with thirteen fields, and one cut short
    after three. *)
Definition full_record : list string :=
  ["1"; "sub"; "rg-one"; "westeurope"; "Microsoft.EventHub/namespaces";
   "evh-one"; "Standard"; "99.95%"; "true"; "false"; "true"; "false";
   "trailing"].

Definition short_record : list string := ["2"; "sub"; "rg-one"].

End examples.

(** * Properties *)

Local Open Scope list_scope.

(** Unfolding of the monad operations. *)
Ltac go_unfold :=
  unfold deref, panic, fatal, to.Ptr, mbind, Go_bind, go_bind, mret, Go_ret,
    go_ret in *.

(** Case analysis on the entry of a map literal that a lookup found. *)
Ltac table_cases H :=
  apply elem_of_list_to_map_2 in H;
  repeat (apply elem_of_cons in H as [H|H]);
  [..|by apply elem_of_nil in H];
  injection H as -> ->.

(** Replaces the populated fields by their contents. *)
Ltac use_fields :=
  repeat match goal with
         | H : is_Some _ |- _ => destruct H as [? H]
         | H : exists _, _ |- _ => destruct H as [? H]
         | H : _ /\ _ |- _ => destruct H as [? ?]
         end;
  repeat match goal with
         | H : _ = Some _ |- _ => rewrite H in *; simpl in *
         end.

(** Looks a concrete key up in a map literal. *)
Ltac lookup_literal H :=
  simpl in H;
  repeat (rewrite lookup_insert_ne in H by discriminate);
  rewrite lookup_insert_eq in H;
  injection H as <-.

(** ** Strings *)

Lemma lower_ascii_idemp c :
  strings.lower_ascii (strings.lower_ascii c) = strings.lower_ascii c.
Proof. destruct c as [[] [] [] [] [] [] [] []]; reflexivity. Qed.

Lemma ToLower_idemp s : strings.ToLower (strings.ToLower s) = strings.ToLower s.
Proof.
  induction s as [|c s IH]; simpl; [reflexivity|].
  by rewrite lower_ascii_idemp, IH.
Qed.

(** ** Event Hub: evh-003 *)

(** C3, as amended: for an Event Hub namespace with a SKU name, evh-003
    returns broken=false in every case, with detail "99.95%" when the name
    contains "Basic" or "Standard" and "99.99%" otherwise. *)
Theorem evh_003_sla (i : armeventhub.EHNamespace) (s : armeventhub.SKU)
    (sku : string) (ctx : azqr.ScanContext) (m : gmap positive bool) :
  armeventhub.EHNamespace_SKU i = Some s ->
  armeventhub.SKU_Name s = Some sku ->
  evh.evh_003 (EHNamespace_ptr i) ctx m =
    Returned
      ((false,
        if strings.Contains sku "Basic" || strings.Contains sku "Standard"
        then "99.95%" else "99.99%"), m).
Proof.
  intros Hs Hn. unfold evh.evh_003. go_unfold.
  rewrite Hs; simpl. rewrite Hn; simpl.
  by destruct (strings.Contains sku "Basic"),
              (strings.Contains sku "Standard").
Qed.

Lemma evh_003_sla_witness :
  evh.evh_003 (EHNamespace_ptr examples.standard_namespace)
    examples.no_context ∅ =
  Returned ((false, "99.95%"), ∅).
Proof.
  exact (evh_003_sla examples.standard_namespace _ "Standard"
           examples.no_context ∅ eq_refl eq_refl).
Defined.

(** C3, as stated, fails: the SKU name "Standard" does not contain "Basic",
    yet the detail is "99.95%", not "99.99%". *)
Lemma evh_003_standard_counterexample :
  strings.Contains "Standard" "Basic" = false /\
  result (evh.evh_003 (EHNamespace_ptr examples.standard_namespace)
            examples.no_context ∅) = Returned (false, "99.95%") /\
  result (evh.evh_003 (EHNamespace_ptr examples.standard_namespace)
            examples.no_context ∅) <> Returned (false, "99.99%").
Proof. split; [reflexivity|]. split; [reflexivity|]. discriminate. Qed.

(** ** AKS: aks-002, aks-003 and aks-014 *)

Section ZonesLoop.
Import armcontainerservice.

(** What one profile does to [zones]: it is kept only when the profile has
    two availability zones or more. *)
Lemma zones_step_spec (az : slice string) :
  (is_nil az || (negb (is_nil az) && (len az <=? 1)%nat)) = (len az <=? 1)%nat.
Proof. by destruct az. Qed.

Lemma zones_foldl (l : list ManagedClusterAgentPoolProfile) (z : bool) :
  foldl
    (fun zones profile =>
       let az := ManagedClusterAgentPoolProfile_AvailabilityZones profile in
       if is_nil az || (negb (is_nil az) && (len az <=? 1)%nat)
       then false else zones) z l
  = z && forallb
           (fun profile =>
              negb (len (ManagedClusterAgentPoolProfile_AvailabilityZones
                           profile) <=? 1)%nat) l.
Proof.
  revert z. induction l as [|p l IH]; intros z; simpl.
  - by rewrite andb_true_r.
  - rewrite IH, zones_step_spec.
    destruct (len _ <=? 1)%nat; simpl; [by rewrite andb_false_r|done].
Qed.

(** [zones] ends false as soon as one profile has its zones nil or at most
    one zone. *)
Lemma zones_loop_false (profiles : slice ManagedClusterAgentPoolProfile)
    (profile : ManagedClusterAgentPoolProfile) :
  profile ∈ elems profiles ->
  len (ManagedClusterAgentPoolProfile_AvailabilityZones profile) <= 1 ->
  aks.zones_loop profiles = false.
Proof.
  intros Hin Hlen. unfold aks.zones_loop. rewrite zones_foldl; simpl.
  apply not_true_is_false. intros Hall.
  rewrite forallb_forall in Hall.
  apply list_elem_of_In, Hall in Hin.
  apply negb_true_iff, Nat.leb_gt in Hin. lia.
Qed.

(** [zones] ends true when every profile has two zones or more. *)
Lemma zones_loop_true (profiles : slice ManagedClusterAgentPoolProfile) :
  (forall profile, profile ∈ elems profiles ->
     2 <= len (ManagedClusterAgentPoolProfile_AvailabilityZones profile)) ->
  aks.zones_loop profiles = true.
Proof.
  intros Hall. unfold aks.zones_loop. rewrite zones_foldl; simpl.
  apply forallb_forall. intros p Hp.
  apply list_elem_of_In, Hall in Hp.
  apply negb_true_iff, Nat.leb_gt. lia.
Qed.

End ZonesLoop.

(** C4: for a managed cluster with properties, (1) a profile whose
    AvailabilityZones has length 1 makes aks-002 return broken=true; (2) on a
    tier whose name does not contain "Free", aks-003 returns detail "99.9%"
    when some profile has its AvailabilityZones nil or of length at most 1,
    and detail "99.95%" when every profile has two zones or more. *)
Theorem aks_zones_and_sla (c : armcontainerservice.ManagedCluster)
    (p : armcontainerservice.ManagedClusterProperties)
    (ctx : azqr.ScanContext) (m : gmap positive bool) :
  armcontainerservice.ManagedCluster_Properties c = Some p ->
  let profiles :=
    elems (armcontainerservice.ManagedClusterProperties_AgentPoolProfiles p) in
  let zones profile :=
    armcontainerservice.ManagedClusterAgentPoolProfile_AvailabilityZones
      profile in
  ((exists profile zs,
       profile ∈ profiles /\ zones profile = Some zs /\ length zs = 1) ->
   aks.aks_002 (ManagedCluster_ptr c) ctx m = Returned ((true, ""), m)) /\
  (forall s tier,
     armcontainerservice.ManagedCluster_SKU c = Some s ->
     armcontainerservice.ManagedClusterSKU_Tier s = Some tier ->
     strings.Contains tier "Free" = false ->
     ((exists profile,
          profile ∈ profiles /\
          (is_nil (zones profile) = true \/ len (zones profile) <= 1)) ->
      aks.aks_003 (ManagedCluster_ptr c) ctx m
      = Returned ((false, "99.9%"), m)) /\
     ((forall profile, profile ∈ profiles -> 2 <= len (zones profile)) ->
      aks.aks_003 (ManagedCluster_ptr c) ctx m
      = Returned ((false, "99.95%"), m))).
Proof.
  intros Hp profiles zones. split.
  - intros (profile & zs & Hin & Hzs & Hlen).
    unfold aks.aks_002. go_unfold. rewrite Hp; simpl.
    rewrite (zones_loop_false _ profile Hin); [done|].
    fold (zones profile). rewrite Hzs; simpl. lia.
  - intros s tier Hs Ht Hfree.
    assert (Htier : aks.sku_tier c = tier).
    { unfold aks.sku_tier. by rewrite Hs, Ht. }
    split.
    + intros (profile & Hin & Hbad).
      unfold aks.aks_003. go_unfold. rewrite Hp; simpl.
      rewrite Htier, Hfree; simpl.
      rewrite (zones_loop_false _ profile Hin); [done|].
      fold (zones profile).
      destruct Hbad as [Hnil|Hle]; [|done].
      destruct (zones profile); [discriminate|simpl; lia].
    + intros Hall.
      unfold aks.aks_003. go_unfold. rewrite Hp; simpl.
      rewrite Htier, Hfree; simpl.
      by rewrite (zones_loop_true _ Hall).
Qed.

Lemma aks_zones_and_sla_witness :
  aks.aks_002
    (ManagedCluster_ptr
       (examples.cluster (Some [examples.pool (Some ["1"]) None]) None))
    examples.no_context ∅ = Returned ((true, ""), ∅) /\
  aks.aks_003
    (ManagedCluster_ptr
       (examples.cluster (Some [examples.pool (Some ["1"]) None]) None))
    examples.no_context ∅ = Returned ((false, "99.9%"), ∅).
Proof.
  pose proof
    (aks_zones_and_sla
       (examples.cluster (Some [examples.pool (Some ["1"]) None]) None)
       _ examples.no_context ∅ eq_refl) as [H2 H3].
  split.
  - apply H2. exists (examples.pool (Some ["1"]) None), ["1"].
    split; [apply list_elem_of_here|]. split; reflexivity.
  - refine (proj1 (H3 _ "Standard" eq_refl eq_refl eq_refl) _).
    exists (examples.pool (Some ["1"]) None).
    split; [apply list_elem_of_here|]. right. simpl. lia.
Defined.

(** C10: for a managed cluster with properties, (1) when the profile list is
    not empty aks-014 returns from the loop on the first profile: broken is
    true exactly when that profile's EnableAutoScaling is nil or false,
    whatever the later profiles are; (2) a nil or empty list gives
    broken=true. *)
Theorem aks_014_first_profile (c : armcontainerservice.ManagedCluster)
    (props : armcontainerservice.ManagedClusterProperties)
    (ctx : azqr.ScanContext) (m : gmap positive bool) :
  armcontainerservice.ManagedCluster_Properties c = Some props ->
  let profiles :=
    armcontainerservice.ManagedClusterProperties_AgentPoolProfiles props in
  (forall first later,
     profiles = Some (first :: later) ->
     exists broken,
       aks.aks_014 (ManagedCluster_ptr c) ctx m = Returned ((broken, ""), m) /\
       (broken = true <->
        armcontainerservice.ManagedClusterAgentPoolProfile_EnableAutoScaling
          first = None \/
        armcontainerservice.ManagedClusterAgentPoolProfile_EnableAutoScaling
          first = Some false)) /\
  (len profiles = 0 ->
   aks.aks_014 (ManagedCluster_ptr c) ctx m = Returned ((true, ""), m)).
Proof.
  intros Hp profiles. split.
  - intros first later Hl.
    unfold aks.aks_014. go_unfold. rewrite Hp; simpl.
    fold profiles. rewrite Hl; simpl.
    destruct (armcontainerservice.ManagedClusterAgentPoolProfile_EnableAutoScaling
                first) as [[]|]; simpl; eexists; (split; [reflexivity|]).
    + split; [discriminate|]. intros [?|?]; discriminate.
    + split; [by right|done].
    + split; [by left|done].
  - intros Hlen.
    unfold aks.aks_014. go_unfold. rewrite Hp; simpl.
    fold profiles. destruct profiles as [[|? ?]|]; simpl in *; try done.
Qed.

Lemma aks_014_first_profile_witness :
  exists broken,
    aks.aks_014
      (ManagedCluster_ptr
         (examples.cluster
            (Some [examples.pool None (Some true);
                   examples.pool None (Some false);
                   examples.pool None None]) None))
      examples.no_context ∅ = Returned ((broken, ""), ∅) /\
    (broken = true <-> Some true = None \/ Some true = Some false).
Proof.
  exact (proj1
           (aks_014_first_profile
              (examples.cluster
                 (Some [examples.pool None (Some true);
                        examples.pool None (Some false);
                        examples.pool None None]) None)
              _ examples.no_context ∅ eq_refl)
           (examples.pool None (Some true))
           [examples.pool None (Some false); examples.pool None None]
           eq_refl).
Defined.

(** ** Databricks: dbw-001 and dbw-007 *)

(** The index the build produces has lower-cased keys. *)
Lemma DiagnosticsSettingsIndex_Build_normalized (owners : list string) :
  azqr.normalized (azqr.DiagnosticsSettingsIndex_Build owners).
Proof.
  unfold azqr.normalized.
  induction owners as [|id owners IH]; intros k; simpl.
  - rewrite dom_empty_L. set_solver.
  - rewrite dom_insert_L, elem_of_union, elem_of_singleton.
    intros [->|Hk]; [apply ToLower_idemp|by apply IH].
Qed.

(** The keys of the built index are the lower-cased owners. *)
Lemma DiagnosticsSettingsIndex_Build_dom (owners : list string) (k : string) :
  k ∈ dom (azqr.DiagnosticsSettingsIndex_Build owners) <->
  exists id, id ∈ owners /\ k = strings.ToLower id.
Proof.
  induction owners as [|id owners IH]; simpl.
  - rewrite dom_empty_L. split; [set_solver|].
    intros (? & Hin & _). by apply elem_of_nil in Hin.
  - rewrite dom_insert_L, elem_of_union, elem_of_singleton, IH. split.
    + intros [->|(id' & Hin & ->)].
      * exists id. split; [apply list_elem_of_here|done].
      * exists id'. split; [by apply list_elem_of_further|done].
    + intros (id' & Hin & ->). apply elem_of_cons in Hin as [->|Hin].
      * by left.
      * right. by exists id'.
Qed.

(** C2: for a workspace with an id and an index with lower-cased keys,
    dbw-001 returns broken=false exactly when the id equals a key of the
    index up to letter case and broken=true exactly when no key does, never
    an error; every spelling of the id that differs in letter case only gives
    the same result. *)
Theorem dbw_001_diagnostics (service : armdatabricks.Workspace) (id : string)
    (ctx : azqr.ScanContext) (m : gmap positive bool) :
  armdatabricks.Workspace_ID service = Some id ->
  azqr.normalized (azqr.ScanContext_DiagnosticsSettings ctx) ->
  let is_key :=
    exists k, k ∈ dom (azqr.ScanContext_DiagnosticsSettings ctx) /\
              strings.ToLower k = strings.ToLower id in
  exists broken,
    dbw.dbw_001 (Workspace_ptr service) ctx m = Returned ((broken, ""), m) /\
    (broken = false <-> is_key) /\
    (broken = true <-> ~ is_key) /\
    (forall service' id',
       armdatabricks.Workspace_ID service' = Some id' ->
       strings.ToLower id' = strings.ToLower id ->
       dbw.dbw_001 (Workspace_ptr service') ctx m
       = Returned ((broken, ""), m)).
Proof.
  intros Hid Hnorm is_key.
  assert (Hkey : is_key <->
                 is_Some (azqr.ScanContext_DiagnosticsSettings ctx
                            !! strings.ToLower id)).
  { rewrite <- elem_of_dom. split.
    - intros (k & Hk & Heq). rewrite <- Heq. by rewrite (Hnorm k Hk).
    - intros Hk. exists (strings.ToLower id). split; [done|].
      apply ToLower_idemp. }
  unfold dbw.dbw_001. go_unfold. rewrite Hid; simpl.
  destruct (azqr.ScanContext_DiagnosticsSettings ctx !! strings.ToLower id)
    as [v|] eqn:Hl; simpl.
  - exists false. split; [done|]. split; [|split].
    + split; [intros _; apply Hkey; eauto|done].
    + split; [done|]. intros Hn. exfalso. apply Hn, Hkey. eauto.
    + intros service' id' Hid' Hcase. rewrite Hid'; simpl.
      by rewrite Hcase, Hl.
  - exists true. split; [done|]. split; [|split].
    + split; [done|]. intros Hk. apply Hkey in Hk as [? ?]. done.
    + split; [|done]. intros _ Hk. apply Hkey in Hk as [? ?]. done.
    + intros service' id' Hid' Hcase. rewrite Hid'; simpl.
      by rewrite Hcase, Hl.
Qed.

Lemma dbw_001_diagnostics_witness :
  exists broken,
    dbw.dbw_001
      (Workspace_ptr
         (examples.workspace
            (Some "/SUBSCRIPTIONS/s/resourcegroups/g/providers/microsoft.databricks/workspaces/dbw-one")
            None))
      examples.one_setting ∅ = Returned ((broken, ""), ∅) /\
    broken = false.
Proof.
  destruct
    (dbw_001_diagnostics
       (examples.workspace
          (Some "/SUBSCRIPTIONS/s/resourcegroups/g/providers/microsoft.databricks/workspaces/dbw-one")
          None)
       _ examples.one_setting ∅ eq_refl
       (DiagnosticsSettingsIndex_Build_normalized _))
    as (broken & Hrun & Hfalse & _ & _).
  exists broken. split; [exact Hrun|].
  apply Hfalse.
  exists "/subscriptions/s/resourcegroups/g/providers/microsoft.databricks/workspaces/dbw-one".
  split; [|reflexivity].
  apply DiagnosticsSettingsIndex_Build_dom. eexists.
  split; [apply list_elem_of_here|reflexivity].
Defined.

(** C9: for a workspace whose Properties.Parameters is not nil and whose
    pointers point into the store, dbw-007 returns (false, "") whatever
    EnableNoPublicIP and the cell its Value points to hold: the address
    [to.Ptr] has just allocated is no address of the store. *)
Theorem dbw_007_never_broken (c : armdatabricks.Workspace)
    (p : armdatabricks.WorkspaceProperties)
    (q : armdatabricks.WorkspaceCustomParameters)
    (ctx : azqr.ScanContext) (m : gmap positive bool) :
  armdatabricks.Workspace_Properties c = Some p ->
  armdatabricks.WorkspaceProperties_Parameters p = Some q ->
  armdatabricks.allocated m c ->
  result (dbw.dbw_007 (Workspace_ptr c) ctx m) = Returned (false, "").
Proof.
  intros Hp Hq Halloc. unfold dbw.dbw_007. go_unfold.
  rewrite Hp; simpl. rewrite Hq; simpl.
  destruct (armdatabricks.WorkspaceCustomParameters_EnableNoPublicIP q)
    as [e|] eqn:He; simpl; [|done].
  rewrite bool_decide_eq_false_2; [done|].
  intros Hv. apply (is_fresh (dom m)).
  by apply (Halloc p q e).
Qed.

Lemma dbw_007_never_broken_witness :
  ({[1%positive := true]} : gmap positive bool) !! 1%positive = Some true /\
  result
    (dbw.dbw_007
       (Workspace_ptr
          (examples.workspace None
             (Some (examples.no_public_ip (Some 1%positive)))))
       examples.no_context {[1%positive := true]})
  = Returned (false, "").
Proof.
  split; [reflexivity|].
  apply (dbw_007_never_broken
           (examples.workspace None
              (Some (examples.no_public_ip (Some 1%positive))))
           _ _ examples.no_context {[1%positive := true]} eq_refl eq_refl).
  intros p q e a Hp Hq He Ha. simpl in *. simplify_eq. simpl in *.
  simplify_eq. set_solver.
Defined.

(** ** The Advisor scanner *)

(** C6, as amended: when the Advisor listing fails with an error, [Scan]
    degrades to an empty result list if [ShouldSkipError] marks the error
    skippable, and otherwise logs it through [log.Fatal], which ends the
    process. *)
Theorem advisor_Scan_listing_error (ShouldSkipError : string -> bool)
    (NewRecommendationsClient :
       azqr.ScannerConfig ->
       pager armadvisor.ResourceRecommendationBase + string)
    (config : azqr.ScannerConfig)
    (client : pager armadvisor.ResourceRecommendationBase)
    (partial : list armadvisor.ResourceRecommendationBase) (err : string)
    (m : gmap positive bool) :
  NewRecommendationsClient config = inl client ->
  advisor.list_loop client [] = (partial, Some err) ->
  advisor.Scan ShouldSkipError NewRecommendationsClient true config m =
    if ShouldSkipError err
    then Returned ([], m)
    else Fatal "Failed to list Advisor recommendations".
Proof.
  intros Hclient Hlist.
  unfold advisor.Scan, advisor.Init, advisor.ListRecommendations.
  rewrite Hclient; simpl. go_unfold. rewrite Hlist; simpl.
  by destruct (ShouldSkipError err).
Qed.

Lemma advisor_Scan_listing_error_witness :
  advisor.Scan examples.skip_missing_registration
    (examples.failing_client "MissingSubscriptionRegistration") true
    examples.config ∅ = Returned ([], ∅).
Proof.
  exact (advisor_Scan_listing_error examples.skip_missing_registration
           (examples.failing_client "MissingSubscriptionRegistration")
           examples.config _ [] "MissingSubscriptionRegistration" ∅
           eq_refl eq_refl).
Defined.

(** C6, as stated, fails: an error the classifier does not mark skippable is
    not recorded against the unit of work; it ends the process. *)
Lemma advisor_Scan_fatal_counterexample :
  examples.skip_missing_registration "context deadline exceeded" = false /\
  advisor.Scan examples.skip_missing_registration
    (examples.failing_client "context deadline exceeded") true
    examples.config ∅ = Fatal "Failed to list Advisor recommendations".
Proof. split; reflexivity. Qed.

(** ** The resource-group scanners *)

Section ScanProperties.

Context {R : Type}.
Variables Name Type_ Location : R -> option string.
Variable as_target : R -> target.
Variable engine :
  gmap string azqr.AzqrRecommendation -> target -> azqr.ScanContext ->
  Go (list azqr.ResultRow).
Variable rules : gmap string azqr.AzqrRecommendation.

(** Pages that all succeed are appended in the order they come. *)
Lemma list_loop_pages (pages : list (list R)) (acc : list R) :
  scan.list_loop (inl <$> pages) acc = (acc ++ concat pages, None).
Proof.
  revert acc. induction pages as [|page pages IH]; intros acc; simpl.
  - by rewrite app_nil_r.
  - by rewrite IH, app_assoc.
Qed.

(** A failed listing hands back no resource. *)
Lemma list_loop_error (pages : pager R) (acc rs : list R) (err : string) :
  scan.list_loop pages acc = (rs, Some err) -> rs = [].
Proof.
  revert acc. induction pages as [|[page|e] pages IH]; intros acc; simpl.
  - discriminate.
  - apply IH.
  - congruence.
Qed.

(** The loop appends one stamped result per resource, in order. *)
Lemma Scan_loop_appends (c : @scan.Scanner R) (resourceGroupName : string)
    (scanContext : azqr.ScanContext) (resources : list R) :
  (forall w, w ∈ resources ->
     is_Some (Name w) /\ is_Some (Type_ w) /\ is_Some (Location w)) ->
  (forall w m0, w ∈ resources ->
     exists rr m1,
       engine rules (as_target w) scanContext m0 = Returned (rr, m1)) ->
  forall results m,
  exists rows m',
    scan.Scan_loop Name Type_ Location as_target engine rules c
      resourceGroupName scanContext resources results m
    = Returned (results ++ rows, m') /\
    Forall2
      (scan.stamped Name Type_ Location as_target engine rules c
         resourceGroupName scanContext) resources rows.
Proof.
  induction resources as [|w resources IH]; intros Hfields Hengine results m.
  - exists [], m. simpl. rewrite app_nil_r. by split; [|constructor].
  - destruct (Hfields w) as ([name Hn] & [type Ht] & [location Hl]);
      [apply list_elem_of_here|].
    destruct (Hengine w m) as (rr & m1 & Hrr); [apply list_elem_of_here|].
    edestruct IH as (rows & m' & Hloop & Hrows).
    { intros w' Hw'. apply Hfields. by apply list_elem_of_further. }
    { intros w' m0 Hw'. apply Hengine. by apply list_elem_of_further. }
    simpl. go_unfold. rewrite Hrr, Hn, Ht, Hl; simpl.
    eexists (_ :: rows), m'. rewrite Hloop.
    split; [by rewrite <- app_assoc|].
    constructor; [|exact Hrows].
    unfold scan.stamped; simpl. repeat (split; [done|]). eauto.
Qed.

(** C7: (1) when every page of the listing succeeds and every listed
    resource has a name, a type and a location and the engine returns for it,
    [Scan] returns no error and one service result per listed resource, in
    the order the pages list them, each stamped with the configured
    subscription id and name, the resource group, the resource's name, type
    and location, and carrying rows the engine returns for that resource;
    (2) when the listing fails, [Scan] returns no rows and the error. *)
Theorem Scan_one_result_per_resource (c : @scan.Scanner R)
    (resourceGroupName : string) (scanContext : azqr.ScanContext)
    (m : gmap positive bool) :
  (forall pages : list (list R),
     scan.Scanner_client c resourceGroupName = inl <$> pages ->
     (forall w, w ∈ concat pages ->
        is_Some (Name w) /\ is_Some (Type_ w) /\ is_Some (Location w)) ->
     (forall w m0, w ∈ concat pages ->
        exists rr m1,
          engine rules (as_target w) scanContext m0 = Returned (rr, m1)) ->
     exists results m',
       scan.Scan Name Type_ Location as_target engine rules c
         resourceGroupName scanContext m
       = Returned ((results, None), m') /\
       Forall2
         (scan.stamped Name Type_ Location as_target engine rules c
            resourceGroupName scanContext)
         (concat pages) results) /\
  (forall partial err,
     scan.list_ c resourceGroupName = (partial, Some err) ->
     scan.Scan Name Type_ Location as_target engine rules c
       resourceGroupName scanContext m
     = Returned (([], Some err), m)).
Proof.
  split.
  - intros pages Hpages Hfields Hengine.
    destruct (Scan_loop_appends c resourceGroupName scanContext
                (concat pages) Hfields Hengine [] m)
      as (rows & m' & Hloop & Hrows).
    exists rows, m'. split; [|exact Hrows].
    unfold scan.Scan, scan.list_. rewrite Hpages, list_loop_pages; simpl.
    go_unfold. by rewrite Hloop.
  - intros partial err Hlist. unfold scan.Scan. by rewrite Hlist.
Qed.

End ScanProperties.

Lemma Scan_one_result_per_resource_witness :
  exists results m',
    vmss.Scan (azqr.EvaluateRecommendations map_to_list) examples.sla_only
      examples.two_pages "rg-one" examples.no_context ∅
    = Returned ((results, None), m') /\
    Forall2
      (scan.stamped armcompute.VirtualMachineScaleSet_Name
         armcompute.VirtualMachineScaleSet_Type
         armcompute.VirtualMachineScaleSet_Location
         VirtualMachineScaleSet_ptr
         (azqr.EvaluateRecommendations map_to_list) examples.sla_only
         examples.two_pages "rg-one" examples.no_context)
      [ examples.scale_set "vmss-a" "westeurope";
        examples.scale_set "vmss-b" "northeurope";
        examples.scale_set "vmss-c" "westeurope" ]
      results.
Proof.
  apply (proj1
           (Scan_one_result_per_resource
              armcompute.VirtualMachineScaleSet_Name
              armcompute.VirtualMachineScaleSet_Type
              armcompute.VirtualMachineScaleSet_Location
              VirtualMachineScaleSet_ptr
              (azqr.EvaluateRecommendations map_to_list) examples.sla_only
              examples.two_pages "rg-one" examples.no_context ∅)
           [ [ examples.scale_set "vmss-a" "westeurope";
               examples.scale_set "vmss-b" "northeurope" ];
             [ examples.scale_set "vmss-c" "westeurope" ] ]
           eq_refl).
  - intros w Hw. simpl in Hw.
    repeat (apply elem_of_cons in Hw as [->|Hw]);
      [| | |by apply elem_of_nil in Hw]; simpl; eauto.
  - intros w m0 _. eexists _, _. vm_compute. reflexivity.
Defined.

(** ** The recommendation engine *)

Section EngineProperties.

Variable range :
  gmap string azqr.AzqrRecommendation ->
  list (string * azqr.AzqrRecommendation).

(** When every predicate returns, the rules are evaluated one after the other
    and each leaves its row. *)
Lemma evaluate_each_rows
    (entries : list (string * azqr.AzqrRecommendation)) (resource : target)
    (ctx : azqr.ScanContext) :
  (forall k rule m0, (k, rule) ∈ entries ->
     exists r m1,
       azqr.AzqrRecommendation_Eval rule resource ctx m0 = Returned (r, m1)) ->
  forall m,
  exists rows m',
    azqr.evaluate_each entries resource ctx m = Returned (rows, m') /\
    Forall2 (fun entry row => azqr.row_of resource ctx entry.2 row)
      entries rows.
Proof.
  induction entries as [|[k rule] entries IH]; intros Hret m; simpl.
  - exists [], m. by split; [|constructor].
  - destruct (Hret k rule m) as ([b d] & m1 & Heval);
      [apply list_elem_of_here|].
    destruct (IH (fun k' rule' m0 Hin =>
                    Hret k' rule' m0 (list_elem_of_further _ _ _ Hin)) m1)
      as (rows & m' & Hrows & Hall).
    unfold azqr.evaluate. go_unfold. rewrite Heval; simpl. rewrite Hrows.
    eexists (_ :: rows), m'. split; [reflexivity|].
    constructor; [|exact Hall].
    split; [reflexivity|]. simpl. eauto.
Qed.

(** An enumeration visits exactly the entries of the map. *)
Lemma enumerates_lookup (T : gmap string azqr.AzqrRecommendation)
    (k : string) (rule : azqr.AzqrRecommendation) :
  azqr.enumerates range -> (k, rule) ∈ range T -> T !! k = Some rule.
Proof.
  intros Hrange Hin. apply elem_of_map_to_list. by rewrite <- (Hrange T).
Qed.

(** C1, as amended: when [range] enumerates Go maps and every predicate of
    the table [T] returns on the resource and context, EvaluateRecommendations
    returns exactly len(T) rows, one per rule of [T], each naming its rule and
    holding the pair the rule's predicate returns; the rows come in the order
    [range] visits the map, which is a rearrangement of the entries of any
    literal that declares [T]. *)
Theorem EvaluateRecommendations_one_row_per_rule
    (T : gmap string azqr.AzqrRecommendation) (resource : target)
    (ctx : azqr.ScanContext) (m : gmap positive bool) :
  azqr.enumerates range ->
  (forall k rule m0, T !! k = Some rule ->
     exists r m1,
       azqr.AzqrRecommendation_Eval rule resource ctx m0 = Returned (r, m1)) ->
  exists rows m',
    azqr.EvaluateRecommendations range T resource ctx m
    = Returned (rows, m') /\
    length rows = size T /\
    Forall2 (fun entry row => azqr.row_of resource ctx entry.2 row)
      (range T) rows /\
    (forall literal,
       NoDup literal.*1 -> T = list_to_map literal -> range T ≡ₚ literal).
Proof.
  intros Hrange Hret.
  assert (Hvisited : forall k rule m0, (k, rule) ∈ range T ->
            exists r m1,
              azqr.AzqrRecommendation_Eval rule resource ctx m0
              = Returned (r, m1)).
  { intros k rule m0 Hin. apply (Hret k). by apply enumerates_lookup. }
  destruct (evaluate_each_rows (range T) resource ctx Hvisited m)
    as (rows & m' & Hrows & Hall).
  exists rows, m'. split; [exact Hrows|]. split; [|split; [exact Hall|]].
  - rewrite <- (Forall2_length _ _ _ Hall), (Hrange T).
    apply length_map_to_list.
  - intros literal Hnodup ->. rewrite (Hrange _).
    by apply map_to_list_to_map.
Qed.

End EngineProperties.

Lemma EvaluateRecommendations_one_row_per_rule_witness :
  exists rows m',
    azqr.EvaluateRecommendations map_to_list
      (list_to_map examples.declared_one)
      (Workspace_ptr (examples.workspace (Some "/subscriptions/s") None))
      examples.no_context ∅
    = Returned (rows, m') /\
    length rows = 2.
Proof.
  destruct
    (EvaluateRecommendations_one_row_per_rule map_to_list
       (list_to_map examples.declared_one)
       (Workspace_ptr (examples.workspace (Some "/subscriptions/s") None))
       examples.no_context ∅)
    as (rows & m' & Hrows & Hlen & _).
  - intros T. reflexivity.
  - intros k rule m0 Hk.
    apply elem_of_list_to_map_2 in Hk.
    repeat (apply elem_of_cons in Hk as [Hk|Hk]);
      [| |by apply elem_of_nil in Hk];
      injection Hk as -> ->; eexists _, _; vm_compute; reflexivity.
  - exists rows, m'. split; [exact Hrows|]. rewrite Hlen. reflexivity.
Defined.

(** C1, as stated, fails: two literals that declare the same two rules in
    opposite orders denote the same Go map, so whatever order a [range] loop
    visits it in, the rows cannot follow the declaration order of both. *)
Lemma declaration_order_counterexample :
  (list_to_map examples.declared_one
   : gmap string azqr.AzqrRecommendation)
  = list_to_map examples.declared_other /\
  ~ exists range,
      (exists rows m',
         azqr.EvaluateRecommendations range
           (list_to_map examples.declared_one)
           (Workspace_ptr (examples.workspace (Some "/subscriptions/s") None))
           examples.no_context ∅ = Returned (rows, m') /\
         azqr.ruleId <$> rows = ["dbw-001"; "dbw-003"]) /\
      (exists rows m',
         azqr.EvaluateRecommendations range
           (list_to_map examples.declared_other)
           (Workspace_ptr (examples.workspace (Some "/subscriptions/s") None))
           examples.no_context ∅ = Returned (rows, m') /\
         azqr.ruleId <$> rows = ["dbw-003"; "dbw-001"]).
Proof.
  assert (Heq : (list_to_map examples.declared_one
                 : gmap string azqr.AzqrRecommendation)
                = list_to_map examples.declared_other).
  { unfold examples.declared_one, examples.declared_other. simpl.
    by apply insert_insert_ne. }
  split; [exact Heq|].
  intros (range & (rows1 & m1 & Hrun1 & Hids1) & (rows2 & m2 & Hrun2 & Hids2)).
  rewrite Heq in Hrun1. rewrite Hrun1 in Hrun2.
  injection Hrun2 as -> _. rewrite Hids1 in Hids2. discriminate.
Qed.

(** ** The rule tables as a whole *)

(** On a populated namespace every Event Hub predicate returns and leaves the
    store alone, except that evh-001 exits the process when the diagnostics
    lookup returns an error. *)
Lemma evh_rules_defined (a : evh.EventHubScanner)
    (i : armeventhub.EHNamespace) (id : string) (ctx : azqr.ScanContext)
    (m : gmap positive bool) (k : string) (rule : scanners.AzureRule) :
  evh.populated i ->
  armeventhub.EHNamespace_ID i = Some id ->
  evh.GetRules a !! k = Some rule ->
  (k <> "DiagnosticSettings" \/
   (scanners.HasDiagnostics (evh.EventHubScanner_diagnosticsSettings a) id).2
   = None ->
   exists r,
     scanners.AzureRule_Eval rule (EHNamespace_ptr i) ctx m
     = Returned (r, m)) /\
  (k = "DiagnosticSettings" ->
   forall err,
     (scanners.HasDiagnostics (evh.EventHubScanner_diagnosticsSettings a)
        id).2 = Some err ->
     exists msg,
       scanners.AzureRule_Eval rule (EHNamespace_ptr i) ctx m = Fatal msg).
Proof.
  intros Hpop Hid Hk. unfold evh.GetRules, evh.GetRules_literal in Hk.
  unfold evh.populated in Hpop.
  table_cases Hk; simpl;
    unfold evh.evh_001, evh.evh_002, evh.evh_003, evh.evh_004, evh.evh_005,
      evh.evh_006; go_unfold; use_fields;
    (split; [|try discriminate]); try (intros _; eauto; fail).
  - intros [Hne|Hok]; [done|].
    destruct (scanners.HasDiagnostics _ _) as [has err]; simpl in *.
    subst err. eauto.
  - intros _ err Herr.
    destruct (scanners.HasDiagnostics _ _) as [has err']; simpl in *.
    subst err'. eauto.
Qed.

(** On a populated cluster every AKS predicate returns and leaves the store
    alone, except that aks-001 exits the process when the diagnostics lookup
    returns an error. *)
Lemma aks_rules_defined (a : aks.AKSScanner)
    (c : armcontainerservice.ManagedCluster) (id : string)
    (ctx : azqr.ScanContext) (m : gmap positive bool) (k : string)
    (rule : scanners.AzureRule) :
  aks.populated c ->
  armcontainerservice.ManagedCluster_ID c = Some id ->
  aks.GetRules a !! k = Some rule ->
  (k <> "DiagnosticSettings" \/
   (scanners.HasDiagnostics (aks.AKSScanner_diagnosticsSettings a) id).2
   = None ->
   exists r,
     scanners.AzureRule_Eval rule (ManagedCluster_ptr c) ctx m
     = Returned (r, m)) /\
  (k = "DiagnosticSettings" ->
   forall err,
     (scanners.HasDiagnostics (aks.AKSScanner_diagnosticsSettings a) id).2
     = Some err ->
     exists msg,
       scanners.AzureRule_Eval rule (ManagedCluster_ptr c) ctx m = Fatal msg).
Proof.
  intros Hpop Hid Hk. unfold aks.GetRules, aks.GetRules_literal in Hk.
  destruct Hpop as (Hi & Hn & p & Hp & Hrbac & Hnet & Haddons).
  pose proof (Haddons "httpApplicationRouting") as Hrouting.
  pose proof (Haddons "omsagent") as Homs. clear Haddons.
  table_cases Hk; simpl;
    unfold aks.aks_001, aks.aks_002, aks.aks_003, aks.aks_004, aks.aks_005,
      aks.aks_006, aks.aks_007, aks.aks_008, aks.aks_009, aks.aks_010,
      aks.aks_011, aks.aks_012, aks.aks_013, aks.aks_014, aks.aks_015;
    go_unfold;
    (split; [|try discriminate]).
  all: try (intros _; use_fields; repeat case_match; eauto; fail).
  - intros [Hne|Hok]; [done|]. use_fields.
    destruct (scanners.HasDiagnostics _ _) as [has err]; simpl in *.
    subst err. go_unfold. eauto.
  - intros _ err Herr. use_fields.
    destruct (scanners.HasDiagnostics _ _) as [has err']; simpl in *.
    subst err'. go_unfold. eauto.
  - intros _. rewrite Hp; simpl.
    destruct (armcontainerservice.ManagedClusterProperties_AddonProfiles p
                !! "httpApplicationRouting") as [v|] eqn:Hv; [|eauto].
    destruct (Hrouting v) as (addon & -> & [enabled He]); [by left|done|].
    simpl. rewrite He; simpl. eauto.
  - intros _. rewrite Hp; simpl.
    destruct (armcontainerservice.ManagedClusterProperties_AddonProfiles p
                !! "omsagent") as [v|] eqn:Hv; [|eauto].
    destruct (Homs v) as (addon & -> & [enabled He]); [by right|done|].
    simpl. rewrite He; simpl. eauto.
Qed.

(** On a populated workspace every Databricks predicate returns. *)
Lemma dbw_rules_defined (w : armdatabricks.Workspace) (ctx : azqr.ScanContext)
    (m : gmap positive bool) (k : string)
    (rule : azqr.AzqrRecommendation) :
  dbw.populated w ->
  dbw.GetRecommendations !! k = Some rule ->
  exists r m',
    azqr.AzqrRecommendation_Eval rule (Workspace_ptr w) ctx m
    = Returned (r, m').
Proof.
  intros Hpop Hk.
  unfold dbw.GetRecommendations, dbw.GetRecommendations_literal in Hk.
  unfold dbw.populated in Hpop.
  table_cases Hk; simpl;
    unfold dbw.dbw_001, dbw.dbw_003, dbw.dbw_004, dbw.dbw_005, dbw.dbw_006,
      dbw.dbw_007; go_unfold; use_fields; repeat case_match; simplify_eq;
    eauto.
Qed.

(** C5, as amended: on a resource whose dereferenced fields are populated,
    every rule predicate of the three tables returns a defined
    (broken, detail) pair, except that the diagnostic-settings predicates
    evh-001 and aks-001 exit the process through [log.Fatalf] when the
    diagnostics lookup returns an error; and a field that an AKS predicate
    tests against nil (DisableLocalAccounts, AADProfile,
    APIServerAccessProfile, AgentPoolProfiles, SKU, Tags) is treated as not
    configured: the rule reports broken=true. *)
Theorem predicates_defined_unless_lookup_fails :
  (forall a i id ctx m k rule,
     evh.populated i ->
     armeventhub.EHNamespace_ID i = Some id ->
     evh.GetRules a !! k = Some rule ->
     (k <> "DiagnosticSettings" \/
      (scanners.HasDiagnostics (evh.EventHubScanner_diagnosticsSettings a)
         id).2 = None ->
      exists r,
        scanners.AzureRule_Eval rule (EHNamespace_ptr i) ctx m
        = Returned (r, m)) /\
     (k = "DiagnosticSettings" ->
      forall err,
        (scanners.HasDiagnostics (evh.EventHubScanner_diagnosticsSettings a)
           id).2 = Some err ->
        exists msg,
          scanners.AzureRule_Eval rule (EHNamespace_ptr i) ctx m
          = Fatal msg)) /\
  (forall a c id ctx m k rule,
     aks.populated c ->
     armcontainerservice.ManagedCluster_ID c = Some id ->
     aks.GetRules a !! k = Some rule ->
     (k <> "DiagnosticSettings" \/
      (scanners.HasDiagnostics (aks.AKSScanner_diagnosticsSettings a) id).2
      = None ->
      exists r,
        scanners.AzureRule_Eval rule (ManagedCluster_ptr c) ctx m
        = Returned (r, m)) /\
     (k = "DiagnosticSettings" ->
      forall err,
        (scanners.HasDiagnostics (aks.AKSScanner_diagnosticsSettings a) id).2
        = Some err ->
        exists msg,
          scanners.AzureRule_Eval rule (ManagedCluster_ptr c) ctx m
          = Fatal msg)) /\
  (forall w ctx m k rule,
     dbw.populated w ->
     dbw.GetRecommendations !! k = Some rule ->
     exists r m',
       azqr.AzqrRecommendation_Eval rule (Workspace_ptr w) ctx m
       = Returned (r, m')) /\
  (forall c p ctx m,
     armcontainerservice.ManagedCluster_Properties c = Some p ->
     (armcontainerservice.ManagedClusterProperties_DisableLocalAccounts p
      = None ->
      aks.aks_009 (ManagedCluster_ptr c) ctx m = Returned ((true, ""), m)) /\
     (armcontainerservice.ManagedClusterProperties_AADProfile p = None ->
      aks.aks_007 (ManagedCluster_ptr c) ctx m = Returned ((true, ""), m)) /\
     (armcontainerservice.ManagedClusterProperties_APIServerAccessProfile p
      = None ->
      aks.aks_004 (ManagedCluster_ptr c) ctx m = Returned ((true, ""), m)) /\
     (armcontainerservice.ManagedClusterProperties_AgentPoolProfiles p
      = None ->
      aks.aks_014 (ManagedCluster_ptr c) ctx m = Returned ((true, ""), m))) /\
  (forall c ctx m,
     (armcontainerservice.ManagedCluster_SKU c = None ->
      aks.aks_005 (ManagedCluster_ptr c) ctx m
      = Returned ((true, "Free"), m)) /\
     (armcontainerservice.ManagedCluster_Tags c = None ->
      aks.aks_015 (ManagedCluster_ptr c) ctx m = Returned ((true, ""), m))).
Proof.
  split; [intros; by eapply evh_rules_defined|].
  split; [intros; by eapply aks_rules_defined|].
  split; [intros; by eapply dbw_rules_defined|].
  split.
  - intros c p ctx m Hp.
    unfold aks.aks_009, aks.aks_007, aks.aks_004, aks.aks_014. go_unfold.
    rewrite Hp; simpl.
    repeat split; intros Hnil; by rewrite Hnil.
  - intros c ctx m. unfold aks.aks_005, aks.aks_015, aks.sku_tier. go_unfold.
    split; intros Hnil; by rewrite Hnil.
Qed.

Lemma predicates_defined_unless_lookup_fails_witness :
  (exists r,
     evh.evh_002 (EHNamespace_ptr examples.standard_namespace)
       examples.no_context ∅ = Returned (r, ∅)) /\
  (exists msg,
     evh.evh_001 (examples.evh_scanner (false, Some "AuthorizationFailed"))
       (EHNamespace_ptr examples.standard_namespace) examples.no_context ∅
     = Fatal msg) /\
  aks.aks_009
    (ManagedCluster_ptr (examples.cluster None (Some true)))
    examples.no_context ∅ = Returned ((true, ""), ∅).
Proof.
  destruct predicates_defined_unless_lookup_fails
    as (Hevh & _ & _ & Haks & _).
  assert (Hpop : evh.populated examples.standard_namespace).
  { unfold evh.populated; simpl. eauto 10. }
  split; [|split].
  - apply (proj1
             (Hevh (examples.evh_scanner (false, Some "AuthorizationFailed"))
                examples.standard_namespace _ examples.no_context ∅
                "AvailabilityZones" _ Hpop eq_refl eq_refl)).
    left. discriminate.
  - apply (proj2
             (Hevh (examples.evh_scanner (false, Some "AuthorizationFailed"))
                examples.standard_namespace _ examples.no_context ∅
                "DiagnosticSettings" _ Hpop eq_refl eq_refl)
             eq_refl "AuthorizationFailed" eq_refl).
  - apply (proj1
             (Haks (examples.cluster None (Some true)) _ examples.no_context
                ∅ eq_refl)).
    reflexivity.
Defined.

(** C5, as stated, fails: on a namespace with every field populated, evh-001
    exits the process when the diagnostics lookup returns an error. *)
Lemma evh_001_fatal_counterexample :
  evh.populated examples.standard_namespace /\
  evh.evh_001 (examples.evh_scanner (false, Some "AuthorizationFailed"))
    (EHNamespace_ptr examples.standard_namespace) examples.no_context ∅
  = Fatal "Error checking diagnostic settings for service evh-one: AuthorizationFailed".
Proof.
  split; [|reflexivity]. unfold evh.populated; simpl. eauto 10.
Qed.

(** A field that a predicate dereferences without a nil test panics when it is
    nil: evh-002 on a nil ZoneRedundant, aks-008 on a nil EnableRBAC, where
    the neighbouring aks-009 tests DisableLocalAccounts first. *)
Lemma unguarded_nil_panics :
  evh.evh_002 (EHNamespace_ptr examples.namespace_without_zones)
    examples.no_context ∅ = Panic /\
  aks.aks_008 (ManagedCluster_ptr (examples.cluster None None))
    examples.no_context ∅ = Panic /\
  aks.aks_009 (ManagedCluster_ptr (examples.cluster None None))
    examples.no_context ∅ = Returned ((true, ""), ∅).
Proof. repeat split. Qed.

(** ** Purity *)

(** Two Event Hub scanners whose diagnostics lookups agree on the resource id
    give every rule the same result, whatever the store. *)
Lemma evh_rules_noninterference (a1 a2 : evh.EventHubScanner) (t : target)
    (ctx : azqr.ScanContext) (m1 m2 : gmap positive bool) (k : string)
    (r1 r2 : scanners.AzureRule) :
  evh.GetRules a1 !! k = Some r1 ->
  evh.GetRules a2 !! k = Some r2 ->
  (k = "DiagnosticSettings" ->
   forall i id,
     t = EHNamespace_ptr i ->
     armeventhub.EHNamespace_ID i = Some id ->
     scanners.HasDiagnostics (evh.EventHubScanner_diagnosticsSettings a1) id
     = scanners.HasDiagnostics (evh.EventHubScanner_diagnosticsSettings a2)
         id) ->
  result (scanners.AzureRule_Eval r1 t ctx m1)
  = result (scanners.AzureRule_Eval r2 t ctx m2) /\
  forall r m', scanners.AzureRule_Eval r1 t ctx m1 = Returned (r, m') ->
               m' = m1.
Proof.
  intros H1 H2 Hagree.
  unfold evh.GetRules, evh.GetRules_literal in H1, H2.
  table_cases H1; lookup_literal H2; simpl;
    unfold evh.evh_001, evh.evh_002, evh.evh_003, evh.evh_004, evh.evh_005,
      evh.evh_006; go_unfold.
  all: destruct t as [i| | | | |]; simpl;
    try (split; [reflexivity|discriminate]).
  all: try (split; [|intros r m']; repeat case_match; simplify_eq; done).
  all: try (split; [|intros r m']; repeat case_match; simplify_eq;
            simpl in *; congruence).
  destruct (armeventhub.EHNamespace_ID i) as [id|] eqn:Hid; simpl;
    [|split; [done|discriminate]].
  rewrite (Hagree eq_refl i id eq_refl Hid).
  destruct (scanners.HasDiagnostics _ id) as [has [err|]];
    destruct (armeventhub.EHNamespace_Name i); simpl;
    (split; [done|intros r m' Hr; by simplify_eq]).
Qed.

(** The same for the AKS rules. *)
Lemma aks_rules_noninterference (a1 a2 : aks.AKSScanner) (t : target)
    (ctx : azqr.ScanContext) (m1 m2 : gmap positive bool) (k : string)
    (r1 r2 : scanners.AzureRule) :
  aks.GetRules a1 !! k = Some r1 ->
  aks.GetRules a2 !! k = Some r2 ->
  (k = "DiagnosticSettings" ->
   forall c id,
     t = ManagedCluster_ptr c ->
     armcontainerservice.ManagedCluster_ID c = Some id ->
     scanners.HasDiagnostics (aks.AKSScanner_diagnosticsSettings a1) id
     = scanners.HasDiagnostics (aks.AKSScanner_diagnosticsSettings a2) id) ->
  result (scanners.AzureRule_Eval r1 t ctx m1)
  = result (scanners.AzureRule_Eval r2 t ctx m2) /\
  forall r m', scanners.AzureRule_Eval r1 t ctx m1 = Returned (r, m') ->
               m' = m1.
Proof.
  intros H1 H2 Hagree.
  unfold aks.GetRules, aks.GetRules_literal in H1, H2.
  table_cases H1; lookup_literal H2; simpl;
    unfold aks.aks_001, aks.aks_002, aks.aks_003, aks.aks_004, aks.aks_005,
      aks.aks_006, aks.aks_007, aks.aks_008, aks.aks_009, aks.aks_010,
      aks.aks_011, aks.aks_012, aks.aks_013, aks.aks_014, aks.aks_015;
    go_unfold.
  all: destruct t as [|c| | | |]; simpl;
    try (split; [reflexivity|discriminate]).
  all: try (split; [|intros r m']; repeat case_match; simplify_eq; done).
  all: try (split; [|intros r m']; repeat case_match; simplify_eq;
            simpl in *; congruence).
  destruct (armcontainerservice.ManagedCluster_ID c) as [id|] eqn:Hid; simpl;
    [|split; [done|discriminate]].
  rewrite (Hagree eq_refl c id eq_refl Hid).
  destruct (scanners.HasDiagnostics _ id) as [has [err|]];
    destruct (armcontainerservice.ManagedCluster_Name c); simpl;
    (split; [done|intros r m' Hr; by simplify_eq]).
Qed.

(** The Databricks rules give the same result in every store the workspace's
    pointers point into, and leave every cell of the store as it was. *)
Lemma dbw_rules_noninterference (t : target) (ctx : azqr.ScanContext)
    (m1 m2 : gmap positive bool) (k : string)
    (rule : azqr.AzqrRecommendation) :
  dbw.GetRecommendations !! k = Some rule ->
  (forall w, t = Workspace_ptr w ->
     armdatabricks.allocated m1 w /\ armdatabricks.allocated m2 w) ->
  result (azqr.AzqrRecommendation_Eval rule t ctx m1)
  = result (azqr.AzqrRecommendation_Eval rule t ctx m2) /\
  forall r m', azqr.AzqrRecommendation_Eval rule t ctx m1 = Returned (r, m') ->
               m1 ⊆ m'.
Proof.
  intros Hk Halloc.
  unfold dbw.GetRecommendations, dbw.GetRecommendations_literal in Hk.
  table_cases Hk; simpl;
    unfold dbw.dbw_001, dbw.dbw_003, dbw.dbw_004, dbw.dbw_005, dbw.dbw_006,
      dbw.dbw_007; go_unfold.
  all: try (split; [reflexivity|by intros r m' [= _ <-]]).
  all: destruct t as [| |w| | |]; simpl;
    try (split; [reflexivity|discriminate]).
  all: try (split; [|intros r m' Hr]; repeat case_match; simplify_eq;
            reflexivity).
  destruct (Halloc w eq_refl) as [Ha1 Ha2].
  destruct (armdatabricks.Workspace_Properties w) as [p|] eqn:Hp; simpl;
    [|split; [done|discriminate]].
  destruct (armdatabricks.WorkspaceProperties_Parameters p) as [q|] eqn:Hq;
    simpl; [|split; [done|discriminate]].
  destruct (armdatabricks.WorkspaceCustomParameters_EnableNoPublicIP q)
    as [e|] eqn:He; simpl; [|split; [done|by intros r m' [= _ <-]]].
  split.
  - rewrite !bool_decide_eq_false_2; [done| |].
    + intros Hv. apply (is_fresh (dom m2)). by apply (Ha2 p q e).
    + intros Hv. apply (is_fresh (dom m1)). by apply (Ha1 p q e).
  - intros r m' [= _ <-]. apply insert_subseteq, not_elem_of_dom, is_fresh.
Qed.

(** C8, as amended: the result of a rule predicate is determined by the
    resource, the scan context and, for the diagnostic-settings rules evh-001
    and aks-001, by what the scanner's own diagnosticsSettings.HasDiagnostics
    answers for the resource id: evaluations that agree on these give the same
    result, whatever the scanner and the store are otherwise.  No evaluation
    changes a cell of the store: the Event Hub and AKS rules leave the store
    as it is, the Databricks rules at most add a cell. *)
Theorem predicates_depend_on_inputs_and_lookup :
  (forall a1 a2 t ctx m1 m2 k r1 r2,
     evh.GetRules a1 !! k = Some r1 ->
     evh.GetRules a2 !! k = Some r2 ->
     (k = "DiagnosticSettings" ->
      forall i id,
        t = EHNamespace_ptr i ->
        armeventhub.EHNamespace_ID i = Some id ->
        scanners.HasDiagnostics (evh.EventHubScanner_diagnosticsSettings a1)
          id
        = scanners.HasDiagnostics (evh.EventHubScanner_diagnosticsSettings a2)
            id) ->
     result (scanners.AzureRule_Eval r1 t ctx m1)
     = result (scanners.AzureRule_Eval r2 t ctx m2) /\
     forall r m', scanners.AzureRule_Eval r1 t ctx m1 = Returned (r, m') ->
                  m' = m1) /\
  (forall a1 a2 t ctx m1 m2 k r1 r2,
     aks.GetRules a1 !! k = Some r1 ->
     aks.GetRules a2 !! k = Some r2 ->
     (k = "DiagnosticSettings" ->
      forall c id,
        t = ManagedCluster_ptr c ->
        armcontainerservice.ManagedCluster_ID c = Some id ->
        scanners.HasDiagnostics (aks.AKSScanner_diagnosticsSettings a1) id
        = scanners.HasDiagnostics (aks.AKSScanner_diagnosticsSettings a2)
            id) ->
     result (scanners.AzureRule_Eval r1 t ctx m1)
     = result (scanners.AzureRule_Eval r2 t ctx m2) /\
     forall r m', scanners.AzureRule_Eval r1 t ctx m1 = Returned (r, m') ->
                  m' = m1) /\
  (forall t ctx m1 m2 k rule,
     dbw.GetRecommendations !! k = Some rule ->
     (forall w, t = Workspace_ptr w ->
        armdatabricks.allocated m1 w /\ armdatabricks.allocated m2 w) ->
     result (azqr.AzqrRecommendation_Eval rule t ctx m1)
     = result (azqr.AzqrRecommendation_Eval rule t ctx m2) /\
     forall r m',
       azqr.AzqrRecommendation_Eval rule t ctx m1 = Returned (r, m') ->
       m1 ⊆ m').
Proof.
  split; [intros; by eapply evh_rules_noninterference|].
  split; [intros; by eapply aks_rules_noninterference|].
  intros; by eapply dbw_rules_noninterference.
Qed.

Lemma predicates_depend_on_inputs_and_lookup_witness :
  result
    (evh.evh_003 (EHNamespace_ptr examples.standard_namespace)
       examples.no_context ∅)
  = result
      (evh.evh_003 (EHNamespace_ptr examples.standard_namespace)
         examples.no_context {[1%positive := true]}) /\
  result
    (dbw.dbw_007
       (Workspace_ptr
          (examples.workspace None
             (Some (examples.no_public_ip (Some 1%positive)))))
       examples.no_context {[1%positive := true]})
  = result
      (dbw.dbw_007
         (Workspace_ptr
            (examples.workspace None
               (Some (examples.no_public_ip (Some 1%positive)))))
         examples.no_context {[1%positive := false; 2%positive := true]}).
Proof.
  destruct predicates_depend_on_inputs_and_lookup as (Hevh & _ & Hdbw).
  split.
  - apply (Hevh (examples.evh_scanner (true, None))
             (examples.evh_scanner (false, Some "AuthorizationFailed"))
             (EHNamespace_ptr examples.standard_namespace)
             examples.no_context ∅ {[1%positive := true]} "SLA" _ _
             eq_refl eq_refl).
    discriminate.
  - apply (Hdbw _ examples.no_context {[1%positive := true]}
             {[1%positive := false; 2%positive := true]} "dbw-007" _
             eq_refl).
    intros w [= <-].
    split; intros p q e a Hp Hq He Ha; simpl in *; simplify_eq; simpl in *;
      simplify_eq; set_solver.
Defined.

(** C8, as stated, fails: on the same namespace and the same scan context,
    evh-001 returns one pair for a scanner whose diagnostics lookup finds the
    id and another for a scanner whose lookup does not. *)
Lemma evh_001_scanner_state_counterexample :
  result
    (evh.evh_001 (examples.evh_scanner (true, None))
       (EHNamespace_ptr examples.standard_namespace) examples.no_context ∅)
  = Returned (false, "true") /\
  result
    (evh.evh_001 (examples.evh_scanner (false, None))
       (EHNamespace_ptr examples.standard_namespace) examples.no_context ∅)
  = Returned (true, "false").
Proof. split; reflexivity. Qed.

(** * Further properties of the scanners and the rule tables *)

(** ** Listing *)

(** X1: in each of the paging loops, the first page that fails ends the
    listing: the error of that page is returned with no resource at all,
    whatever the pages before it held and whatever pages would follow. *)
Theorem listing_stops_at_first_error :
  (forall (R : Type) (before : list (list R)) (err : string)
          (after : pager R) (acc : list R),
     scan.list_loop ((inl <$> before) ++ inr err :: after) acc
     = ([], Some err)) /\
  (forall before err after svcs,
     nsg.list_loop ((inl <$> before) ++ inr err :: after) svcs
     = ([], Some err)) /\
  (forall before err after recommendations,
     advisor.list_loop ((inl <$> before) ++ inr err :: after) recommendations
     = ([], Some err)).
Proof.
  repeat split.
  - intros R before err after. induction before as [|page before IH];
      intros acc; simpl; [reflexivity|apply IH].
  - intros before err after. induction before as [|page before IH];
      intros acc; simpl; [reflexivity|apply IH].
  - intros before err after. induction before as [|page before IH];
      intros acc; simpl; [reflexivity|apply IH].
Qed.

Section ScanEdges.

Context {R : Type}.
Variables Name Type_ Location : R -> option string.
Variable as_target : R -> target.
Variable engine :
  gmap string azqr.AzqrRecommendation -> target -> azqr.ScanContext ->
  Go (list azqr.ResultRow).
Variable rules : gmap string azqr.AzqrRecommendation.

(** The loop reads the scanner's configuration only. *)
Lemma Scan_loop_config (c1 c2 : @scan.Scanner R) (resourceGroupName : string)
    (scanContext : azqr.ScanContext) (resources : list R)
    (results : list azqr.AzqrServiceResult) (m : gmap positive bool) :
  scan.Scanner_config c1 = scan.Scanner_config c2 ->
  scan.Scan_loop Name Type_ Location as_target engine rules c1
    resourceGroupName scanContext resources results m
  = scan.Scan_loop Name Type_ Location as_target engine rules c2
      resourceGroupName scanContext resources results m.
Proof.
  intros Hc. revert results m.
  induction resources as [|w resources IH]; intros results m; simpl;
    [reflexivity|].
  go_unfold.
  destruct (engine rules (as_target w) scanContext m) as [[rr m1]| |];
    [|reflexivity..].
  destruct (Name w); simpl; [|reflexivity].
  destruct (Type_ w); simpl; [|reflexivity].
  destruct (Location w); simpl; [|reflexivity].
  rewrite Hc. apply IH.
Qed.

(** X2: page boundaries do not show in the results: two scanners with the
    same configuration whose listings succeed and list the same resources in
    the same order, however cut into pages, scan to the same outcome. *)
Theorem Scan_page_boundaries (c1 c2 : @scan.Scanner R)
    (resourceGroupName : string) (scanContext : azqr.ScanContext)
    (pages1 pages2 : list (list R)) (m : gmap positive bool) :
  scan.Scanner_config c1 = scan.Scanner_config c2 ->
  scan.Scanner_client c1 resourceGroupName = inl <$> pages1 ->
  scan.Scanner_client c2 resourceGroupName = inl <$> pages2 ->
  concat pages1 = concat pages2 ->
  scan.Scan Name Type_ Location as_target engine rules c1 resourceGroupName
    scanContext m
  = scan.Scan Name Type_ Location as_target engine rules c2 resourceGroupName
      scanContext m.
Proof.
  intros Hc H1 H2 Hsame. unfold scan.Scan, scan.list_.
  rewrite H1, H2, !list_loop_pages, Hsame; simpl. go_unfold.
  by rewrite (Scan_loop_config c1 c2).
Qed.

(** Once a listed resource lacks a field the loop panics, whatever it has
    appended so far. *)
Lemma Scan_loop_missing_field (c : @scan.Scanner R)
    (resourceGroupName : string) (scanContext : azqr.ScanContext)
    (resources : list R) :
  (forall w m0, w ∈ resources ->
     exists rr m1,
       engine rules (as_target w) scanContext m0 = Returned (rr, m1)) ->
  (exists w, w ∈ resources /\
             (Name w = None \/ Type_ w = None \/ Location w = None)) ->
  forall results m,
    scan.Scan_loop Name Type_ Location as_target engine rules c
      resourceGroupName scanContext resources results m = Panic.
Proof.
  induction resources as [|w resources IH];
    intros Hengine (bad & Hin & Hbad) results m.
  - by apply elem_of_nil in Hin.
  - destruct (Hengine w m) as (rr & m1 & Hrr); [apply list_elem_of_here|].
    simpl. go_unfold. rewrite Hrr.
    destruct (Name w) as [name|] eqn:Hn; simpl; [|reflexivity].
    destruct (Type_ w) as [type|] eqn:Ht; simpl; [|reflexivity].
    destruct (Location w) as [location|] eqn:Hl; simpl; [|reflexivity].
    apply IH.
    + intros w' m0 Hw'. apply Hengine. by apply list_elem_of_further.
    + exists bad. split; [|exact Hbad].
      apply elem_of_cons in Hin as [->|Hin]; [|exact Hin].
      destruct Hbad as [Hb|[Hb|Hb]]; congruence.
Qed.

(** X3: when the listing succeeds and the engine returns for every listed
    resource, but one listed resource has no name, no type or no location,
    [Scan] panics: it returns neither the results gathered so far nor an
    error. *)
Theorem Scan_missing_field_panics (c : @scan.Scanner R)
    (resourceGroupName : string) (scanContext : azqr.ScanContext)
    (pages : list (list R)) (m : gmap positive bool) :
  scan.Scanner_client c resourceGroupName = inl <$> pages ->
  (forall w m0, w ∈ concat pages ->
     exists rr m1,
       engine rules (as_target w) scanContext m0 = Returned (rr, m1)) ->
  (exists w, w ∈ concat pages /\
             (Name w = None \/ Type_ w = None \/ Location w = None)) ->
  scan.Scan Name Type_ Location as_target engine rules c resourceGroupName
    scanContext m = Panic.
Proof.
  intros Hpages Hengine Hbad. unfold scan.Scan, scan.list_.
  rewrite Hpages, list_loop_pages; simpl. go_unfold.
  by rewrite (Scan_loop_missing_field c resourceGroupName scanContext
                (concat pages) Hengine Hbad).
Qed.

End ScanEdges.

(** ** The NSG scanner *)

Section NSGProperties.

Variable engine :
  gmap string azqr.AzqrRecommendation -> armnetwork.SecurityGroup ->
  azqr.ScanContext -> Go (list azqr.ResultRow).
Variable rules : gmap string azqr.AzqrRecommendation.
Variable GetResourceGroupFromResourceID : string -> Go string.

Lemma nsg_list_loop_pages (pages : list (list armnetwork.SecurityGroup))
    (svcs : list armnetwork.SecurityGroup) :
  nsg.list_loop (inl <$> pages) svcs = (svcs ++ concat pages, None).
Proof.
  revert svcs. induction pages as [|page pages IH]; intros svcs; simpl.
  - by rewrite app_nil_r.
  - by rewrite IH, app_assoc.
Qed.

(** The loop appends one stamped result per security group, in order. *)
Lemma nsg_Scan_loop_appends (c : nsg.NSGScanner)
    (scanContext : azqr.ScanContext)
    (svcs : list armnetwork.SecurityGroup) :
  (forall w, w ∈ svcs ->
     is_Some (armnetwork.SecurityGroup_ID w) /\
     is_Some (armnetwork.SecurityGroup_Name w) /\
     is_Some (armnetwork.SecurityGroup_Type w) /\
     is_Some (armnetwork.SecurityGroup_Location w)) ->
  (forall w m0, w ∈ svcs ->
     exists rr m1, engine rules w scanContext m0 = Returned (rr, m1)) ->
  (forall w id m0, w ∈ svcs -> armnetwork.SecurityGroup_ID w = Some id ->
     exists g m1, GetResourceGroupFromResourceID id m0 = Returned (g, m1)) ->
  forall results m,
  exists rows m',
    nsg.Scan_loop engine rules GetResourceGroupFromResourceID c scanContext
      svcs results m
    = Returned (results ++ rows, m') /\
    Forall2
      (nsg.stamped engine rules GetResourceGroupFromResourceID c scanContext)
      svcs rows.
Proof.
  induction svcs as [|w svcs IH];
    intros Hfields Hengine Hgroup results m.
  - exists [], m. simpl. rewrite app_nil_r. by split; [|constructor].
  - destruct (Hfields w)
      as ([id Hi] & [name Hn] & [type Ht] & [location Hl]);
      [apply list_elem_of_here|].
    destruct (Hengine w m) as (rr & m1 & Hrr); [apply list_elem_of_here|].
    destruct (Hgroup w id m1) as (g & m2 & Hg);
      [apply list_elem_of_here|exact Hi|].
    edestruct IH as (rows & m' & Hloop & Hrows).
    { intros w' Hw'. apply Hfields. by apply list_elem_of_further. }
    { intros w' m0 Hw'. apply Hengine. by apply list_elem_of_further. }
    { intros w' id' m0 Hw'. apply Hgroup. by apply list_elem_of_further. }
    simpl. go_unfold. rewrite Hrr, Hi; simpl. rewrite Hg, Hn, Ht, Hl; simpl.
    eexists (_ :: rows), m'. rewrite Hloop.
    split; [by rewrite <- app_assoc|].
    constructor; [|exact Hrows].
    unfold nsg.stamped; simpl.
    split; [done|]. split; [done|]. split; [eauto 10|].
    repeat (split; [done|]). eauto.
Qed.

(** X4: (1) when every page of the listing of the subscription succeeds and
    every listed security group has an id, a name, a type and a location, and
    the engine and the resource-group helper return for it, [NSGScanner.Scan]
    returns no error and one service result per listed group, in listing
    order, each stamped with the configured subscription, the resource group
    the helper reads off the group's id, and the group's name, type and
    location, and carrying rows the engine returns for the group; (2) when
    the listing fails, [Scan] returns no rows and the error. *)
Theorem nsg_Scan_one_result_per_group (c : nsg.NSGScanner)
    (scanContext : azqr.ScanContext) (m : gmap positive bool) :
  (forall pages : list (list armnetwork.SecurityGroup),
     nsg.NSGScanner_client c = inl <$> pages ->
     (forall w, w ∈ concat pages ->
        is_Some (armnetwork.SecurityGroup_ID w) /\
        is_Some (armnetwork.SecurityGroup_Name w) /\
        is_Some (armnetwork.SecurityGroup_Type w) /\
        is_Some (armnetwork.SecurityGroup_Location w)) ->
     (forall w m0, w ∈ concat pages ->
        exists rr m1, engine rules w scanContext m0 = Returned (rr, m1)) ->
     (forall w id m0,
        w ∈ concat pages -> armnetwork.SecurityGroup_ID w = Some id ->
        exists g m1,
          GetResourceGroupFromResourceID id m0 = Returned (g, m1)) ->
     exists results m',
       nsg.Scan engine rules GetResourceGroupFromResourceID c scanContext m
       = Returned ((results, None), m') /\
       Forall2
         (nsg.stamped engine rules GetResourceGroupFromResourceID c
            scanContext)
         (concat pages) results) /\
  (forall partial err,
     nsg.list_ c = (partial, Some err) ->
     nsg.Scan engine rules GetResourceGroupFromResourceID c scanContext m
     = Returned (([], Some err), m)).
Proof.
  split.
  - intros pages Hpages Hfields Hengine Hgroup.
    destruct (nsg_Scan_loop_appends c scanContext (concat pages) Hfields
                Hengine Hgroup [] m) as (rows & m' & Hloop & Hrows).
    exists rows, m'. split; [|exact Hrows].
    unfold nsg.Scan, nsg.list_. rewrite Hpages, nsg_list_loop_pages; simpl.
    go_unfold. by rewrite Hloop.
  - intros partial err Hlist. unfold nsg.Scan. by rewrite Hlist.
Qed.

(** X5: a listed security group without an id makes [NSGScanner.Scan] panic
    as soon as the loop reaches it, before the resource-group helper is
    called, although the groups before it were evaluated. *)
Theorem nsg_Scan_nil_id_panics (c : nsg.NSGScanner)
    (scanContext : azqr.ScanContext)
    (before after : list armnetwork.SecurityGroup)
    (w : armnetwork.SecurityGroup) (m : gmap positive bool) :
  nsg.NSGScanner_client c = [inl (before ++ w :: after)] ->
  (forall w', w' ∈ before ->
     is_Some (armnetwork.SecurityGroup_ID w') /\
     is_Some (armnetwork.SecurityGroup_Name w') /\
     is_Some (armnetwork.SecurityGroup_Type w') /\
     is_Some (armnetwork.SecurityGroup_Location w')) ->
  (forall w' m0, w' ∈ before ++ [w] ->
     exists rr m1, engine rules w' scanContext m0 = Returned (rr, m1)) ->
  (forall w' id m0,
     w' ∈ before -> armnetwork.SecurityGroup_ID w' = Some id ->
     exists g m1, GetResourceGroupFromResourceID id m0 = Returned (g, m1)) ->
  armnetwork.SecurityGroup_ID w = None ->
  nsg.Scan engine rules GetResourceGroupFromResourceID c scanContext m
  = Panic.
Proof.
  intros Hclient Hfields Hengine Hgroup Hnil.
  unfold nsg.Scan, nsg.list_. rewrite Hclient; simpl. go_unfold.
  enough (Hloop : forall results m0,
            nsg.Scan_loop engine rules GetResourceGroupFromResourceID c
              scanContext (before ++ w :: after) results m0 = Panic)
    by (by rewrite Hloop).
  clear Hclient. induction before as [|b before IH]; intros results m0; simpl.
  - destruct (Hengine w m0) as (rr & m1 & Hrr); [apply list_elem_of_here|].
    go_unfold. by rewrite Hrr, Hnil.
  - destruct (Hfields b)
      as ([id Hi] & [name Hn] & [type Ht] & [location Hl]);
      [apply list_elem_of_here|].
    destruct (Hengine b m0) as (rr & m1 & Hrr); [apply list_elem_of_here|].
    destruct (Hgroup b id m1) as (g & m2 & Hg);
      [apply list_elem_of_here|exact Hi|].
    go_unfold. rewrite Hrr, Hi; simpl. rewrite Hg, Hn, Ht, Hl; simpl.
    apply IH.
    + intros w' Hw'. apply Hfields. by apply list_elem_of_further.
    + intros w' m' Hw'. apply Hengine. by apply list_elem_of_further.
    + intros w' id' m' Hw'. apply Hgroup. by apply list_elem_of_further.
Qed.

End NSGProperties.

(** ** The Advisor scanner, continued *)

Section AdvisorProperties.

Variable ShouldSkipError : string -> bool.
Variable NewRecommendationsClient :
  azqr.ScannerConfig -> pager armadvisor.ResourceRecommendationBase + string.

Lemma advisor_list_loop_pages
    (pages : list (list armadvisor.ResourceRecommendationBase))
    (recommendations : list armadvisor.ResourceRecommendationBase) :
  advisor.list_loop (inl <$> pages) recommendations
  = (recommendations ++ concat pages, None).
Proof.
  revert recommendations.
  induction pages as [|page pages IH]; intros recommendations; simpl.
  - by rewrite app_nil_r.
  - by rewrite IH, app_assoc.
Qed.

(** The conversion loop appends one result per recommendation, in order, and
    leaves the store alone. *)
Lemma convert_loop_appends (s : advisor.AdvisorScanner)
    (recommendations : list armadvisor.ResourceRecommendationBase) :
  (forall r, r ∈ recommendations ->
     is_Some (armadvisor.ResourceRecommendationBase_Properties r)) ->
  forall returnRecommendations m,
  exists results,
    advisor.convert_loop s recommendations returnRecommendations m
    = Returned (returnRecommendations ++ results, m) /\
    Forall2 (advisor_converted s) recommendations results.
Proof.
  induction recommendations as [|r recommendations IH];
    intros Hprops acc m.
  - exists []. simpl. rewrite app_nil_r. by split; [|constructor].
  - destruct (Hprops r) as [p Hp]; [apply list_elem_of_here|].
    edestruct IH as (results & Hloop & Hall).
    { intros r' Hr'. apply Hprops. by apply list_elem_of_further. }
    simpl. go_unfold. rewrite Hp; simpl.
    eexists (_ :: results). rewrite Hloop.
    split; [by rewrite <- app_assoc|].
    constructor; [|exact Hall].
    exists p. split; [exact Hp|]. simpl.
    repeat split; try reflexivity;
      try (by destruct (_ : option string)).
    destruct (armadvisor.RecommendationProperties_ShortDescription p)
      as [d|]; simpl; [|reflexivity].
    by destruct (armadvisor.ShortDescription_Problem d).
Qed.

(** A recommendation without properties makes the conversion loop panic. *)
Lemma convert_loop_nil_properties (s : advisor.AdvisorScanner)
    (recommendations : list armadvisor.ResourceRecommendationBase) :
  (exists r, r ∈ recommendations /\
             armadvisor.ResourceRecommendationBase_Properties r = None) ->
  forall returnRecommendations m,
    advisor.convert_loop s recommendations returnRecommendations m = Panic.
Proof.
  induction recommendations as [|r recommendations IH];
    intros (bad & Hin & Hbad) acc m.
  - by apply elem_of_nil in Hin.
  - simpl. go_unfold.
    destruct (armadvisor.ResourceRecommendationBase_Properties r)
      as [p|] eqn:Hp; simpl; [|reflexivity].
    apply IH. exists bad. split; [|exact Hbad].
    apply elem_of_cons in Hin as [->|Hin]; [congruence|exact Hin].
Qed.

(** X6: when the client is constructed, every page of the listing succeeds
    and every recommendation has properties, [AdvisorScanner.Scan] returns
    one result per recommendation, in listing order, each stamped with the
    configured subscription id and name and holding the fields of the
    recommendation that are set, the empty string for a field that is nil;
    the classifier is not consulted. *)
Theorem advisor_Scan_one_result_per_recommendation
    (config : azqr.ScannerConfig)
    (pages : list (list armadvisor.ResourceRecommendationBase))
    (m : gmap positive bool) :
  NewRecommendationsClient config = inl (inl <$> pages) ->
  (forall r, r ∈ concat pages ->
     is_Some (armadvisor.ResourceRecommendationBase_Properties r)) ->
  exists results,
    advisor.Scan ShouldSkipError NewRecommendationsClient true config m
    = Returned (results, m) /\
    Forall2
      (advisor_converted
         {| advisor.AdvisorScanner_config := config;
            advisor.AdvisorScanner_client := inl <$> pages |})
      (concat pages) results.
Proof.
  intros Hclient Hprops.
  destruct (convert_loop_appends
              {| advisor.AdvisorScanner_config := config;
                 advisor.AdvisorScanner_client := inl <$> pages |}
              (concat pages) Hprops [] m) as (results & Hloop & Hall).
  exists results. split; [|exact Hall].
  unfold advisor.Scan, advisor.Init, advisor.ListRecommendations.
  rewrite Hclient; simpl. rewrite advisor_list_loop_pages; simpl.
  go_unfold. by rewrite Hloop.
Qed.

(** X7: when the listing succeeds but one recommendation has no properties,
    [AdvisorScanner.Scan] panics: the nil pointer is dereferenced before any
    of the nil tests on the fields. *)
Theorem advisor_Scan_nil_properties_panics (config : azqr.ScannerConfig)
    (pages : list (list armadvisor.ResourceRecommendationBase))
    (m : gmap positive bool) :
  NewRecommendationsClient config = inl (inl <$> pages) ->
  (exists r, r ∈ concat pages /\
             armadvisor.ResourceRecommendationBase_Properties r = None) ->
  advisor.Scan ShouldSkipError NewRecommendationsClient true config m = Panic.
Proof.
  intros Hclient Hbad.
  unfold advisor.Scan, advisor.Init, advisor.ListRecommendations.
  rewrite Hclient; simpl. rewrite advisor_list_loop_pages; simpl.
  go_unfold. by rewrite (convert_loop_nil_properties _ _ Hbad).
Qed.

(** X8: an error of the client constructor ends the process, also when the
    classifier would skip that error: only errors of the listing are
    classified. *)
Theorem advisor_Scan_init_error_fatal (config : azqr.ScannerConfig)
    (err : string) (m : gmap positive bool) :
  NewRecommendationsClient config = inr err ->
  advisor.Scan ShouldSkipError NewRecommendationsClient true config m
  = Fatal "Failed to initialize Advisor Scanner".
Proof.
  intros Hclient. unfold advisor.Scan, advisor.Init. by rewrite Hclient.
Qed.

End AdvisorProperties.

(** ** The AKS rules, continued *)

Section AKSProperties.
Import armcontainerservice.

Lemma forallb_Permutation {A} (f : A -> bool) (l1 l2 : list A) :
  l1 ≡ₚ l2 -> forallb f l1 = forallb f l2.
Proof.
  induction 1 as [|x l1 l2 _ IH|x y l|l1 l2 l3 _ IH1 _ IH2]; simpl.
  - reflexivity.
  - by rewrite IH.
  - by destruct (f x), (f y).
  - by rewrite IH1.
Qed.

(** The order of the profiles does not matter to [zones]. *)
Lemma zones_loop_Permutation
    (profiles1 profiles2 : slice ManagedClusterAgentPoolProfile) :
  elems profiles1 ≡ₚ elems profiles2 ->
  aks.zones_loop profiles1 = aks.zones_loop profiles2.
Proof.
  intros Hperm. unfold aks.zones_loop. rewrite !zones_foldl; simpl.
  by apply forallb_Permutation.
Qed.

(** X9: for a cluster with properties, aks-002 returns broken=true exactly
    when some agent pool profile has its AvailabilityZones nil or with at
    most one zone; a cluster with no profile at all, nil or empty list, is
    therefore not broken. *)
Theorem aks_002_broken_iff (c : ManagedCluster) (p : ManagedClusterProperties)
    (ctx : azqr.ScanContext) (m : gmap positive bool) :
  ManagedCluster_Properties c = Some p ->
  exists broken,
    aks.aks_002 (ManagedCluster_ptr c) ctx m = Returned ((broken, ""), m) /\
    (broken = true <->
     exists profile,
       profile ∈ elems (ManagedClusterProperties_AgentPoolProfiles p) /\
       len (ManagedClusterAgentPoolProfile_AvailabilityZones profile) <= 1) /\
    (len (ManagedClusterProperties_AgentPoolProfiles p) = 0 ->
     broken = false).
Proof.
  intros Hp. unfold aks.aks_002. go_unfold. rewrite Hp; simpl.
  eexists. split; [reflexivity|]. split.
  - rewrite negb_true_iff. split.
    + intros Hz.
      destruct (decide
                  (Forall
                     (fun profile =>
                        2 <= len
                               (ManagedClusterAgentPoolProfile_AvailabilityZones
                                  profile))
                     (elems (ManagedClusterProperties_AgentPoolProfiles p))))
        as [Hall|Hnot].
      * rewrite zones_loop_true in Hz; [discriminate|].
        by apply Forall_forall.
      * apply not_Forall_Exists in Hnot; [|intros ?; apply _].
        apply Exists_exists in Hnot as (profile & Hin & Hlt).
        exists profile. split; [exact Hin|]. simpl in Hlt. lia.
    + intros (profile & Hin & Hle). by eapply zones_loop_false.
  - intros Hlen. apply negb_false_iff, zones_loop_true.
    intros profile Hin.
    destruct (ManagedClusterProperties_AgentPoolProfiles p) as [[|? ?]|];
      simpl in *; try discriminate; by apply elem_of_nil in Hin.
Qed.

(** X10: aks-002 and aks-003 do not depend on the order of the agent pool
    profiles: two clusters of the same SKU whose profile lists are
    rearrangements of each other get the same results. *)
Theorem aks_zone_rules_ignore_profile_order (c1 c2 : ManagedCluster)
    (p1 p2 : ManagedClusterProperties) (ctx : azqr.ScanContext)
    (m : gmap positive bool) :
  ManagedCluster_Properties c1 = Some p1 ->
  ManagedCluster_Properties c2 = Some p2 ->
  ManagedCluster_SKU c1 = ManagedCluster_SKU c2 ->
  elems (ManagedClusterProperties_AgentPoolProfiles p1)
  ≡ₚ elems (ManagedClusterProperties_AgentPoolProfiles p2) ->
  aks.aks_002 (ManagedCluster_ptr c1) ctx m
  = aks.aks_002 (ManagedCluster_ptr c2) ctx m /\
  aks.aks_003 (ManagedCluster_ptr c1) ctx m
  = aks.aks_003 (ManagedCluster_ptr c2) ctx m.
Proof.
  intros H1 H2 Hsku Hperm.
  unfold aks.aks_002, aks.aks_003, aks.sku_tier. go_unfold.
  rewrite H1, H2, Hsku; simpl.
  by rewrite (zones_loop_Permutation _ _ Hperm).
Qed.

(** X11: for a cluster with properties, aks-003 returns one of the details
    "None", "99.9%" and "99.95%", and broken=true exactly when the detail is
    "None", which is exactly when the tier name (taken as "Free" when the SKU
    or its tier is nil) contains "Free"; so whenever aks-005 reports the
    cluster broken, aks-003 does too. *)
Theorem aks_003_broken_iff_free (c : ManagedCluster)
    (p : ManagedClusterProperties) (ctx : azqr.ScanContext)
    (m : gmap positive bool) :
  ManagedCluster_Properties c = Some p ->
  exists broken detail,
    aks.aks_003 (ManagedCluster_ptr c) ctx m
    = Returned ((broken, detail), m) /\
    (detail = "None" \/ detail = "99.9%" \/ detail = "99.95%") /\
    (broken = true <-> detail = "None") /\
    (broken = true <-> strings.Contains (aks.sku_tier c) "Free" = true) /\
    (forall sku,
       aks.aks_005 (ManagedCluster_ptr c) ctx m = Returned ((true, sku), m) ->
       broken = true).
Proof.
  intros Hp. unfold aks.aks_003, aks.aks_005. go_unfold. rewrite Hp; simpl.
  eexists _, _. split; [reflexivity|].
  destruct (strings.Contains (aks.sku_tier c) "Free") eqn:Hfree; simpl.
  - split; [by left|]. split; [done|]. split; [done|]. done.
  - destruct (aks.zones_loop _); simpl.
    + split; [by right; right|]. split; [done|]. split; [done|].
      intros sku [= Heq _]. apply String.eqb_eq in Heq.
      rewrite Heq in Hfree. discriminate.
    + split; [by right; left|]. split; [done|]. split; [done|].
      intros sku [= Heq _]. apply String.eqb_eq in Heq.
      rewrite Heq in Hfree. discriminate.
Qed.

(** X14: the two add-on rules treat a missing add-on differently and a
    half-filled one alike: without an "httpApplicationRouting" entry aks-010
    is not broken, without an "omsagent" entry aks-011 is broken; with the
    entry present and its Enabled flag set, aks-010 is broken exactly when the
    flag is true and aks-011 exactly when it is false; an entry that is a nil
    pointer or has a nil Enabled flag makes the rule panic. *)
Theorem aks_addon_rules (c : ManagedCluster) (p : ManagedClusterProperties)
    (ctx : azqr.ScanContext) (m : gmap positive bool) :
  ManagedCluster_Properties c = Some p ->
  let routing :=
    ManagedClusterProperties_AddonProfiles p !! "httpApplicationRouting" in
  let insights := ManagedClusterProperties_AddonProfiles p !! "omsagent" in
  (routing = None ->
   aks.aks_010 (ManagedCluster_ptr c) ctx m = Returned ((false, ""), m)) /\
  (insights = None ->
   aks.aks_011 (ManagedCluster_ptr c) ctx m = Returned ((true, ""), m)) /\
  (forall addon enabled,
     routing = Some (Some addon) ->
     ManagedClusterAddonProfile_Enabled addon = Some enabled ->
     aks.aks_010 (ManagedCluster_ptr c) ctx m
     = Returned ((enabled, ""), m)) /\
  (forall addon enabled,
     insights = Some (Some addon) ->
     ManagedClusterAddonProfile_Enabled addon = Some enabled ->
     aks.aks_011 (ManagedCluster_ptr c) ctx m
     = Returned ((negb enabled, ""), m)) /\
  (forall entry,
     routing = Some entry ->
     entry ≫= ManagedClusterAddonProfile_Enabled = None ->
     aks.aks_010 (ManagedCluster_ptr c) ctx m = Panic) /\
  (forall entry,
     insights = Some entry ->
     entry ≫= ManagedClusterAddonProfile_Enabled = None ->
     aks.aks_011 (ManagedCluster_ptr c) ctx m = Panic).
Proof.
  intros Hp routing insights. subst routing insights.
  unfold aks.aks_010, aks.aks_011. go_unfold. rewrite Hp; simpl.
  repeat split.
  - by intros ->.
  - by intros ->.
  - intros addon enabled -> He; simpl. by rewrite He.
  - intros addon enabled -> He; simpl. by rewrite He.
  - intros [addon|] -> He; simpl in *; [by rewrite He|done].
  - intros [addon|] -> He; simpl in *; [by rewrite He|done].
Qed.

End AKSProperties.

(** ** The rule tables, continued *)

(** X12: the predicates recover their resource by a type assertion: applied
    to a resource of another type, every Event Hub rule, every AKS rule and
    every Databricks rule but dbw-003 panics; dbw-003 never looks at its
    target and returns (false, "99.95%") for every target. *)
Theorem rules_panic_on_other_types :
  (forall a t ctx m k rule,
     evh.GetRules a !! k = Some rule ->
     (forall i, t <> EHNamespace_ptr i) ->
     scanners.AzureRule_Eval rule t ctx m = Panic) /\
  (forall a t ctx m k rule,
     aks.GetRules a !! k = Some rule ->
     (forall c, t <> ManagedCluster_ptr c) ->
     scanners.AzureRule_Eval rule t ctx m = Panic) /\
  (forall t ctx m k rule,
     dbw.GetRecommendations !! k = Some rule ->
     (forall w, t <> Workspace_ptr w) ->
     if decide (k = "dbw-003")
     then azqr.AzqrRecommendation_Eval rule t ctx m
          = Returned ((false, "99.95%"), m)
     else azqr.AzqrRecommendation_Eval rule t ctx m = Panic).
Proof.
  split; [|split].
  - intros a t ctx m k rule Hk Hother.
    unfold evh.GetRules, evh.GetRules_literal in Hk.
    table_cases Hk; simpl; destruct t as [i| | | | |];
      try reflexivity; by destruct (Hother i).
  - intros a t ctx m k rule Hk Hother.
    unfold aks.GetRules, aks.GetRules_literal in Hk.
    table_cases Hk; simpl; destruct t as [|c| | | |];
      try reflexivity; by destruct (Hother c).
  - intros t ctx m k rule Hk Hother.
    unfold dbw.GetRecommendations, dbw.GetRecommendations_literal in Hk.
    table_cases Hk; simpl; destruct t as [| |w| | |];
      try reflexivity; by destruct (Hother w).
Qed.

(** X13: what a broken row can say: a rule of the Event Hub table that
    returns broken=true returns the detail "false"; a rule of the Databricks
    table that returns broken=true returns the empty detail; a rule of the AKS
    table that returns broken=true returns the empty detail, "None" (aks-003)
    or "Free" (aks-005). *)
Theorem broken_rows_details :
  (forall a t ctx m k rule detail m',
     evh.GetRules a !! k = Some rule ->
     scanners.AzureRule_Eval rule t ctx m = Returned ((true, detail), m') ->
     detail = "false") /\
  (forall t ctx m k rule detail m',
     dbw.GetRecommendations !! k = Some rule ->
     azqr.AzqrRecommendation_Eval rule t ctx m
     = Returned ((true, detail), m') ->
     detail = "") /\
  (forall a t ctx m k rule detail m',
     aks.GetRules a !! k = Some rule ->
     scanners.AzureRule_Eval rule t ctx m = Returned ((true, detail), m') ->
     detail = "" \/ detail = "None" \/ detail = "Free").
Proof.
  split; [|split].
  - intros a t ctx m k rule detail m' Hk.
    unfold evh.GetRules, evh.GetRules_literal in Hk.
    table_cases Hk; simpl;
      unfold evh.evh_001, evh.evh_002, evh.evh_003, evh.evh_004,
        evh.evh_005, evh.evh_006; go_unfold;
      destruct t as [i| | | | |]; try discriminate;
      intros Hr; repeat case_match; simplify_eq;
      repeat match goal with
             | H : negb ?b = true |- _ =>
                 apply negb_true_iff in H; rewrite H
             end; reflexivity.
  - intros t ctx m k rule detail m' Hk.
    unfold dbw.GetRecommendations, dbw.GetRecommendations_literal in Hk.
    table_cases Hk; simpl;
      unfold dbw.dbw_001, dbw.dbw_003, dbw.dbw_004, dbw.dbw_005,
        dbw.dbw_006, dbw.dbw_007; go_unfold;
      try discriminate;
      destruct t as [| |w| | |]; try discriminate;
      intros Hr; repeat case_match; simplify_eq; reflexivity.
  - intros a t ctx m k rule detail m' Hk.
    unfold aks.GetRules, aks.GetRules_literal in Hk.
    table_cases Hk; simpl;
      unfold aks.aks_001, aks.aks_002, aks.aks_003, aks.aks_004,
        aks.aks_005, aks.aks_006, aks.aks_007, aks.aks_008, aks.aks_009,
        aks.aks_010, aks.aks_011, aks.aks_012, aks.aks_013, aks.aks_014,
        aks.aks_015; go_unfold;
      destruct t as [|c| | | |]; try discriminate;
      intros Hr; repeat case_match; simplify_eq; auto.
    + right; right. by apply String.eqb_eq.
    + left.
      destruct (armcontainerservice.ManagedClusterProperties_AgentPoolProfiles
                  m0) as [[|first later]|]; simpl in *; try discriminate.
      by destruct
           (armcontainerservice.ManagedClusterAgentPoolProfile_EnableAutoScaling
              first); simplify_eq.
Qed.

(** X15: when the diagnostics lookup returns an error, evh-001 and aks-001
    never return a pair, whatever boolean came with the error: they exit the
    process with a message naming the service and the error, or panic when
    the resource has no name to put in the message. *)
Theorem diagnostics_lookup_error_outcome :
  (forall a i id has err ctx m,
     armeventhub.EHNamespace_ID i = Some id ->
     scanners.HasDiagnostics (evh.EventHubScanner_diagnosticsSettings a) id
     = (has, Some err) ->
     evh.evh_001 a (EHNamespace_ptr i) ctx m
     = match armeventhub.EHNamespace_Name i with
       | Some name =>
           Fatal ("Error checking diagnostic settings for service "
                  +:+ name +:+ ": " +:+ err)
       | None => Panic
       end) /\
  (forall a c id has err ctx m,
     armcontainerservice.ManagedCluster_ID c = Some id ->
     scanners.HasDiagnostics (aks.AKSScanner_diagnosticsSettings a) id
     = (has, Some err) ->
     aks.aks_001 a (ManagedCluster_ptr c) ctx m
     = match armcontainerservice.ManagedCluster_Name c with
       | Some name =>
           Fatal ("Error checking diagnostic settings for service "
                  +:+ name +:+ ": " +:+ err)
       | None => Panic
       end).
Proof.
  split.
  - intros a i id has err ctx m Hid Hlookup.
    unfold evh.evh_001. go_unfold. rewrite Hid; simpl. rewrite Hlookup.
    by destruct (armeventhub.EHNamespace_Name i).
  - intros a c id has err ctx m Hid Hlookup.
    unfold aks.aks_001. go_unfold. rewrite Hid; simpl. rewrite Hlookup.
    by destruct (armcontainerservice.ManagedCluster_Name c).
Qed.

(** ** Naming rules *)

(** [strings.HasPrefix] holds exactly of the strings that begin with the
    prefix. *)
Lemma HasPrefix_spec (s prefix : string) :
  strings.HasPrefix s prefix = true <-> exists rest, s = prefix +:+ rest.
Proof.
  revert s. induction prefix as [|p prefix IH]; intros s; simpl.
  - split; [intros _; by exists s|by destruct s].
  - destruct s as [|c s]; simpl.
    + split; [discriminate|]. intros (rest & Hrest). discriminate.
    + destruct (Ascii.eqb_spec c p) as [->|Hne].
      * rewrite IH. split.
        -- intros (rest & ->). by exists rest.
        -- intros (rest & [= ->]). by exists rest.
      * split; [discriminate|]. intros (rest & [= Hc _]). done.
Qed.

(** X16: the three naming rules pass exactly the names that begin with the
    lower-case abbreviation of the resource type: for a resource with a name,
    evh-006, aks-006 and dbw-006 return broken=false when the name is "evh",
    "aks" or "dbw" followed by anything, and broken=true for every other
    name. *)
Theorem naming_rules_prefix :
  (forall c name ctx m,
     armeventhub.EHNamespace_Name c = Some name ->
     exists broken,
       evh.evh_006 (EHNamespace_ptr c) ctx m
       = Returned ((broken, strconv.FormatBool (negb broken)), m) /\
       (broken = false <-> exists rest, name = "evh" +:+ rest)) /\
  (forall c name ctx m,
     armcontainerservice.ManagedCluster_Name c = Some name ->
     exists broken,
       aks.aks_006 (ManagedCluster_ptr c) ctx m = Returned ((broken, ""), m) /\
       (broken = false <-> exists rest, name = "aks" +:+ rest)) /\
  (forall c name ctx m,
     armdatabricks.Workspace_Name c = Some name ->
     exists broken,
       dbw.dbw_006 (Workspace_ptr c) ctx m = Returned ((broken, ""), m) /\
       (broken = false <-> exists rest, name = "dbw" +:+ rest)).
Proof.
  split; [|split]; intros c name ctx m Hname.
  - unfold evh.evh_006. go_unfold. rewrite Hname; simpl.
    eexists. split; [by rewrite negb_involutive|].
    by rewrite negb_false_iff, HasPrefix_spec.
  - unfold aks.aks_006. go_unfold. rewrite Hname; simpl.
    eexists. split; [reflexivity|].
    by rewrite negb_false_iff, HasPrefix_spec.
  - unfold dbw.dbw_006. go_unfold. rewrite Hname; simpl.
    eexists. split; [reflexivity|].
    by rewrite negb_false_iff, HasPrefix_spec.
Qed.

(** ** The Word report *)

Section WordProperties.

Variables os_Create WriteTo Close : option string.

(** The inner loop on a record: it copies the fields after those already
    passed, or panics when the record ends too early. *)
Lemma cells_loop_outcome (records : list (list string)) (x : nat)
    (record : list string) (a n : nat) (m : gmap positive bool) :
  records !! x = Some record ->
  word.cells_loop records x (seq a n) m
  = if decide (n = 0 \/ a + n + 1 <= length record)
    then Returned (take n (drop (a + 1) record), m)
    else Panic.
Proof.
  intros Hx. revert a. induction n as [|n IH]; intros a.
  - reflexivity.
  - cbn [seq word.cells_loop]. unfold word.index. go_unfold.
    rewrite Hx; cbn [fst snd].
    destruct (record !! (a + 1)) as [text|] eqn:Ht.
    + rewrite IH. apply lookup_lt_Some in Ht as Hlt.
      rewrite (drop_S _ _ _ Ht).
      replace (S (a + 1)) with (S a + 1) by lia.
      repeat case_decide; try reflexivity; lia.
    + apply lookup_ge_None_1 in Ht.
      repeat case_decide; try reflexivity; lia.
Qed.

(** The outer loop on the rows [a], ..., [a + n - 1] of the records. *)
Lemma rows_loop_outcome (records : list (list string)) (cols a n : nat)
    (m : gmap positive bool) :
  a + n <= length records ->
  word.rows_loop records (seq a n) cols m
  = if decide (Forall (fun record => cols = 0 \/ cols + 1 <= length record)
                 (take n (drop a records)))
    then Returned
           ((fun record => take cols (drop 1 record))
              <$> take n (drop a records), m)
    else Panic.
Proof.
  revert a. induction n as [|n IH]; intros a Hlen.
  - reflexivity.
  - destruct (lookup_lt_is_Some_2 records a) as [record Hr]; [lia|].
    rewrite (drop_S _ _ _ Hr). cbn [seq word.rows_loop take fmap list_fmap].
    go_unfold.
    rewrite (cells_loop_outcome records a record 0 cols m Hr).
    replace (0 + cols + 1) with (cols + 1) by lia.
    replace (0 + 1) with 1 by lia.
    destruct (decide (cols = 0 \/ cols + 1 <= length record)) as [Hc|Hc].
    + rewrite IH by lia.
      destruct (decide (Forall _ (take n (drop (S a) records)))) as [Hf|Hf];
        destruct (decide (Forall _ (record :: _))) as [Hg|Hg];
        try reflexivity.
      * destruct Hg. by constructor.
      * destruct Hf. by inversion Hg.
    + destruct (decide (Forall _ (record :: _))) as [Hg|Hg];
        [|reflexivity].
      destruct Hc. by inversion Hg.
Qed.

(** X17: when every record has at least 12 fields, [CreateWordReport] fills
    a table with one row per record, in order, each row holding the fields 2
    to 12 of its record (the first field is left out, fields after the
    twelfth are ignored), under the heading "Recommendations"; the report is
    written when creating, writing and closing the file all succeed, and the
    process exits with "error creating word:" as soon as one of them
    fails. *)
Theorem CreateWordReport_table (records : list (list string))
    (m : gmap positive bool) :
  Forall (fun record => 12 <= length record) records ->
  word.CreateWordReport os_Create WriteTo Close records m
  = match os_Create, WriteTo, Close with
    | None, None, None =>
        Returned
          ({| word.document_heading := "Recommendations";
              word.document_table :=
                (fun record => take 11 (drop 1 record)) <$> records |}, m)
    | _, _, _ => Fatal "error creating word:"
    end.
Proof.
  intros Hall. unfold word.CreateWordReport. go_unfold.
  rewrite (rows_loop_outcome records 11 0 (length records) m) by lia.
  rewrite drop_0, firstn_all.
  case_decide as Hd.
  - by destruct os_Create, WriteTo, Close.
  - destruct Hd. eapply Forall_impl; [exact Hall|].
    intros record Hlen. simpl in *. lia.
Qed.

(** X18: a record with fewer than 12 fields makes [CreateWordReport] panic
    on an index out of range while it fills the table, before the file is
    created: no error of the file operations is reached. *)
Theorem CreateWordReport_short_record_panics (records : list (list string))
    (m : gmap positive bool) :
  Exists (fun record => length record < 12) records ->
  word.CreateWordReport os_Create WriteTo Close records m = Panic.
Proof.
  intros Hshort. unfold word.CreateWordReport. go_unfold.
  rewrite (rows_loop_outcome records 11 0 (length records) m) by lia.
  rewrite drop_0, firstn_all.
  case_decide as Hall; [|reflexivity].
  apply Exists_exists in Hshort as (record & Hin & Hlt).
  rewrite Forall_forall in Hall. specialize (Hall record Hin). lia.
Qed.

End WordProperties.

(** ** Instances of the properties above *)

Lemma Scan_page_boundaries_witness :
  vmss.Scan (azqr.EvaluateRecommendations map_to_list) examples.sla_only
    examples.two_pages "rg-one" examples.no_context ∅
  = vmss.Scan (azqr.EvaluateRecommendations map_to_list) examples.sla_only
      examples.one_page "rg-one" examples.no_context ∅.
Proof.
  exact (Scan_page_boundaries
           armcompute.VirtualMachineScaleSet_Name
           armcompute.VirtualMachineScaleSet_Type
           armcompute.VirtualMachineScaleSet_Location
           VirtualMachineScaleSet_ptr
           (azqr.EvaluateRecommendations map_to_list) examples.sla_only
           examples.two_pages examples.one_page "rg-one" examples.no_context
           [ [ examples.scale_set "vmss-a" "westeurope";
               examples.scale_set "vmss-b" "northeurope" ];
             [ examples.scale_set "vmss-c" "westeurope" ] ]
           [ [ examples.scale_set "vmss-a" "westeurope";
               examples.scale_set "vmss-b" "northeurope";
               examples.scale_set "vmss-c" "westeurope" ] ]
           ∅ eq_refl eq_refl eq_refl eq_refl).
Defined.

Lemma Scan_missing_field_panics_witness :
  armcompute.VirtualMachineScaleSet_Name examples.nameless_scale_set = None /\
  vmss.Scan (azqr.EvaluateRecommendations map_to_list) examples.sla_only
    examples.with_nameless "rg-one" examples.no_context ∅ = Panic.
Proof.
  split; [reflexivity|].
  apply (Scan_missing_field_panics
           armcompute.VirtualMachineScaleSet_Name
           armcompute.VirtualMachineScaleSet_Type
           armcompute.VirtualMachineScaleSet_Location
           VirtualMachineScaleSet_ptr
           (azqr.EvaluateRecommendations map_to_list) examples.sla_only
           examples.with_nameless "rg-one" examples.no_context
           [ [ examples.scale_set "vmss-a" "westeurope" ];
             [ examples.nameless_scale_set;
               examples.scale_set "vmss-c" "westeurope" ] ]
           ∅ eq_refl).
  - intros w m0 _. eexists _, _. vm_compute. reflexivity.
  - exists examples.nameless_scale_set. split; [|by left].
    simpl. apply list_elem_of_further, list_elem_of_here.
Defined.

Lemma nsg_Scan_one_result_per_group_witness :
  exists results m',
    nsg.Scan examples.no_rows examples.sla_only examples.group_of
      (examples.nsg_scanner
         [ inl [ examples.security_group
                   (Some "/subscriptions/s/resourceGroups/rg-net/providers/Microsoft.Network/networkSecurityGroups/nsg-a")
                   "nsg-a" ];
           inl [ examples.security_group
                   (Some "/subscriptions/s/resourceGroups/rg-net/providers/Microsoft.Network/networkSecurityGroups/nsg-b")
                   "nsg-b" ] ])
      examples.no_context ∅
    = Returned ((results, None), m') /\
    azqr.AzqrServiceResult_ServiceName <$> results = ["nsg-a"; "nsg-b"] /\
    azqr.AzqrServiceResult_ResourceGroup <$> results = ["rg-net"; "rg-net"].
Proof.
  destruct
    (proj1
       (nsg_Scan_one_result_per_group examples.no_rows examples.sla_only
          examples.group_of
          (examples.nsg_scanner
             [ inl [ examples.security_group
                       (Some "/subscriptions/s/resourceGroups/rg-net/providers/Microsoft.Network/networkSecurityGroups/nsg-a")
                       "nsg-a" ];
               inl [ examples.security_group
                       (Some "/subscriptions/s/resourceGroups/rg-net/providers/Microsoft.Network/networkSecurityGroups/nsg-b")
                       "nsg-b" ] ])
          examples.no_context ∅)
       [ [ examples.security_group
             (Some "/subscriptions/s/resourceGroups/rg-net/providers/Microsoft.Network/networkSecurityGroups/nsg-a")
             "nsg-a" ];
         [ examples.security_group
             (Some "/subscriptions/s/resourceGroups/rg-net/providers/Microsoft.Network/networkSecurityGroups/nsg-b")
             "nsg-b" ] ]
       eq_refl)
    as (results & m' & Hrun & Hall).
  - intros w Hw. simpl in Hw.
    repeat (apply elem_of_cons in Hw as [->|Hw]);
      [| |by apply elem_of_nil in Hw]; simpl; eauto.
  - intros w m0 _. eexists _, _. reflexivity.
  - intros w id m0 Hw Hid. simpl in Hw.
    repeat (apply elem_of_cons in Hw as [->|Hw]);
      [| |by apply elem_of_nil in Hw];
      injection Hid as <-; eexists _, _; reflexivity.
  - exists results, m'. split; [exact Hrun|].
    vm_compute in Hrun. injection Hrun as <- _. split; reflexivity.
Defined.

Lemma nsg_Scan_nil_id_panics_witness :
  nsg.Scan examples.no_rows examples.sla_only examples.group_of
    (examples.nsg_scanner
       [ inl [ examples.security_group
                 (Some "/subscriptions/s/resourceGroups/rg-net/providers/Microsoft.Network/networkSecurityGroups/nsg-a")
                 "nsg-a";
               examples.security_group None "nsg-b" ] ])
    examples.no_context ∅ = Panic.
Proof.
  apply (nsg_Scan_nil_id_panics examples.no_rows examples.sla_only
           examples.group_of
           (examples.nsg_scanner
              [ inl [ examples.security_group
                        (Some "/subscriptions/s/resourceGroups/rg-net/providers/Microsoft.Network/networkSecurityGroups/nsg-a")
                        "nsg-a";
                      examples.security_group None "nsg-b" ] ])
           examples.no_context
           [ examples.security_group
               (Some "/subscriptions/s/resourceGroups/rg-net/providers/Microsoft.Network/networkSecurityGroups/nsg-a")
               "nsg-a" ]
           [] (examples.security_group None "nsg-b") ∅ eq_refl).
  - intros w Hw. apply elem_of_cons in Hw as [->|Hw];
      [|by apply elem_of_nil in Hw]. simpl. eauto.
  - intros w m0 _. eexists _, _. reflexivity.
  - intros w id m0 Hw Hid. apply elem_of_cons in Hw as [->|Hw];
      [|by apply elem_of_nil in Hw].
    injection Hid as <-. eexists _, _. reflexivity.
  - reflexivity.
Defined.

Lemma advisor_Scan_one_result_per_recommendation_witness :
  exists results,
    advisor.Scan examples.skip_missing_registration
      (examples.advisor_client
         [ inl [ examples.advisor_recommendation (Some "vm-one") None ];
           inl [ examples.advisor_recommendation None None ] ])
      true examples.config ∅
    = Returned (results, ∅) /\
    advisor.AdvisorResult_Name <$> results = ["vm-one"; ""].
Proof.
  destruct
    (advisor_Scan_one_result_per_recommendation
       examples.skip_missing_registration
       (examples.advisor_client
          [ inl [ examples.advisor_recommendation (Some "vm-one") None ];
            inl [ examples.advisor_recommendation None None ] ])
       examples.config
       [ [ examples.advisor_recommendation (Some "vm-one") None ];
         [ examples.advisor_recommendation None None ] ]
       ∅ eq_refl)
    as (results & Hrun & Hall).
  - intros r Hr. simpl in Hr.
    repeat (apply elem_of_cons in Hr as [->|Hr]);
      [| |by apply elem_of_nil in Hr]; simpl; eauto.
  - exists results. split; [exact Hrun|].
    vm_compute in Hrun. injection Hrun as <-. reflexivity.
Defined.

Lemma advisor_Scan_nil_properties_panics_witness :
  advisor.Scan examples.skip_missing_registration
    (examples.advisor_client
       [ inl [ examples.advisor_recommendation (Some "vm-one") None;
               examples.bare_recommendation ] ])
    true examples.config ∅ = Panic.
Proof.
  apply (advisor_Scan_nil_properties_panics
           examples.skip_missing_registration
           (examples.advisor_client
              [ inl [ examples.advisor_recommendation (Some "vm-one") None;
                      examples.bare_recommendation ] ])
           examples.config
           [ [ examples.advisor_recommendation (Some "vm-one") None;
               examples.bare_recommendation ] ]
           ∅ eq_refl).
  exists examples.bare_recommendation. split; [|reflexivity].
  simpl. apply list_elem_of_further, list_elem_of_here.
Defined.

Lemma advisor_Scan_init_error_fatal_witness :
  examples.skip_missing_registration "MissingSubscriptionRegistration"
  = true /\
  advisor.Scan examples.skip_missing_registration
    (examples.no_client "MissingSubscriptionRegistration") true
    examples.config ∅
  = Fatal "Failed to initialize Advisor Scanner".
Proof.
  split; [reflexivity|].
  exact (advisor_Scan_init_error_fatal examples.skip_missing_registration
           (examples.no_client "MissingSubscriptionRegistration")
           examples.config "MissingSubscriptionRegistration" ∅ eq_refl).
Defined.

Lemma aks_002_broken_iff_witness :
  exists broken,
    aks.aks_002
      (ManagedCluster_ptr
         (examples.cluster
            (Some [examples.pool (Some ["1"; "2"]) None;
                   examples.pool None None]) None))
      examples.no_context ∅ = Returned ((broken, ""), ∅) /\
    broken = true.
Proof.
  destruct
    (aks_002_broken_iff
       (examples.cluster
          (Some [examples.pool (Some ["1"; "2"]) None;
                 examples.pool None None]) None)
       _ examples.no_context ∅ eq_refl)
    as (broken & Hrun & Hiff & _).
  exists broken. split; [exact Hrun|].
  apply Hiff. exists (examples.pool None None).
  split; [apply list_elem_of_further, list_elem_of_here|simpl; lia].
Defined.

Lemma aks_zone_rules_ignore_profile_order_witness :
  aks.aks_003
    (ManagedCluster_ptr
       (examples.cluster
          (Some [examples.pool (Some ["1"; "2"]) None;
                 examples.pool None None]) None))
    examples.no_context ∅
  = aks.aks_003
      (ManagedCluster_ptr
         (examples.cluster
            (Some [examples.pool None None;
                   examples.pool (Some ["1"; "2"]) None]) (Some true)))
      examples.no_context ∅.
Proof.
  apply (aks_zone_rules_ignore_profile_order
           (examples.cluster
              (Some [examples.pool (Some ["1"; "2"]) None;
                     examples.pool None None]) None)
           (examples.cluster
              (Some [examples.pool None None;
                     examples.pool (Some ["1"; "2"]) None]) (Some true))
           _ _ examples.no_context ∅ eq_refl eq_refl eq_refl).
  simpl. apply perm_swap.
Defined.

Lemma aks_003_broken_iff_free_witness :
  exists broken detail,
    aks.aks_003 (ManagedCluster_ptr (examples.cluster None None))
      examples.no_context ∅ = Returned ((broken, detail), ∅) /\
    (broken = true <-> detail = "None").
Proof.
  destruct
    (aks_003_broken_iff_free (examples.cluster None None) _
       examples.no_context ∅ eq_refl)
    as (broken & detail & Hrun & _ & Hiff & _).
  exists broken, detail. split; [exact Hrun|exact Hiff].
Defined.

Lemma aks_addon_rules_witness :
  aks.aks_010 (ManagedCluster_ptr (examples.cluster None None))
    examples.no_context ∅ = Returned ((false, ""), ∅) /\
  aks.aks_011 (ManagedCluster_ptr (examples.cluster None None))
    examples.no_context ∅ = Returned ((true, ""), ∅).
Proof.
  destruct
    (aks_addon_rules (examples.cluster None None) _ examples.no_context ∅
       eq_refl)
    as (Hrouting & Hinsights & _).
  split; [apply Hrouting|apply Hinsights]; reflexivity.
Defined.

Lemma rules_panic_on_other_types_witness :
  evh.evh_003 (ManagedCluster_ptr (examples.cluster None None))
    examples.no_context ∅ = Panic /\
  dbw.dbw_003 (ManagedCluster_ptr (examples.cluster None None))
    examples.no_context ∅ = Returned ((false, "99.95%"), ∅).
Proof.
  destruct rules_panic_on_other_types as (Hevh & _ & Hdbw).
  split.
  - apply (Hevh (examples.evh_scanner (true, None))
             (ManagedCluster_ptr (examples.cluster None None))
             examples.no_context ∅ "SLA" _ eq_refl).
    intros i. discriminate.
  - apply (Hdbw (ManagedCluster_ptr (examples.cluster None None))
             examples.no_context ∅ "dbw-003" _ eq_refl).
    intros w. discriminate.
Defined.

Lemma broken_rows_details_witness :
  exists detail,
    evh.evh_004 (EHNamespace_ptr examples.standard_namespace)
      examples.no_context ∅ = Returned ((true, detail), ∅) /\
    detail = "false".
Proof.
  assert (Hrun : evh.evh_004 (EHNamespace_ptr examples.standard_namespace)
                   examples.no_context ∅ = Returned ((true, "false"), ∅))
    by (vm_compute; reflexivity).
  exists "false". split; [exact Hrun|].
  exact (proj1 broken_rows_details (examples.evh_scanner (true, None))
           (EHNamespace_ptr examples.standard_namespace)
           examples.no_context ∅ "Private" _ "false" ∅ eq_refl Hrun).
Defined.

Lemma diagnostics_lookup_error_outcome_witness :
  evh.evh_001 (examples.evh_scanner (true, Some "AuthorizationFailed"))
    (EHNamespace_ptr examples.standard_namespace) examples.no_context ∅
  = Fatal "Error checking diagnostic settings for service evh-one: AuthorizationFailed".
Proof.
  exact (proj1 diagnostics_lookup_error_outcome
           (examples.evh_scanner (true, Some "AuthorizationFailed"))
           examples.standard_namespace _ true "AuthorizationFailed"
           examples.no_context ∅ eq_refl eq_refl).
Defined.

Lemma naming_rules_prefix_witness :
  exists broken,
    evh.evh_006 (EHNamespace_ptr examples.standard_namespace)
      examples.no_context ∅
    = Returned ((broken, strconv.FormatBool (negb broken)), ∅) /\
    broken = false.
Proof.
  destruct (proj1 naming_rules_prefix examples.standard_namespace "evh-one"
              examples.no_context ∅ eq_refl) as (broken & Hrun & Hiff).
  exists broken. split; [exact Hrun|].
  apply Hiff. by exists "-one".
Defined.

Lemma CreateWordReport_table_witness :
  word.CreateWordReport None None None
    [examples.full_record; examples.full_record] ∅
  = Returned
      ({| word.document_heading := "Recommendations";
          word.document_table :=
            [ ["sub"; "rg-one"; "westeurope";
               "Microsoft.EventHub/namespaces"; "evh-one"; "Standard";
               "99.95%"; "true"; "false"; "true"; "false"];
              ["sub"; "rg-one"; "westeurope";
               "Microsoft.EventHub/namespaces"; "evh-one"; "Standard";
               "99.95%"; "true"; "false"; "true"; "false"] ] |}, ∅).
Proof.
  apply (CreateWordReport_table None None None
           [examples.full_record; examples.full_record] ∅).
  repeat constructor; simpl; lia.
Defined.

Lemma CreateWordReport_short_record_panics_witness :
  word.CreateWordReport None None None
    [examples.full_record; examples.short_record] ∅ = Panic.
Proof.
  apply (CreateWordReport_short_record_panics None None None
           [examples.full_record; examples.short_record] ∅).
  apply Exists_cons_tl, Exists_cons_hd. simpl. lia.
Defined.
